(** * cascadepooling: the scraper's labelling and tier classification

    A shallow embedding of [src/scraper/scraper.py]: the SIC-to-tier
    classifier, the Wikipedia Chapter 11 name-set builder, the SEC EDGAR
    fetchers and the substring labeller, together with the properties the
    specification states about them.

    Conventions.
    - Python [int] is [Z]; [str] is [string], the UTF-8 bytes of the text
      ([str_len] counts its characters); a [set[str]] is a [gset string]; a
      decoded JSON document is a [pyval].
    - Code that can raise returns a [result]; [try ... except] is a match on
      it.  Logging is kept where a property speaks about it (the Wikipedia
      scraper) as an explicit list of log records.
    - [time.sleep], the CSV writes and the directory creation have no
      influence on the values computed and are left out.
    - What lies outside the repository is a parameter of section [Scraper]:
      the network ([session_get]) and the Python builtins [str.upper],
      [str.strip], [str()] and [int()] on text.  ASCII instances of
      [str.upper] and [str.strip] are given for the literal examples. *)

From Stdlib Require Import ZArith Lia.
From Stdlib Require Import Floats.SpecFloat.
From stdpp Require Import base option list gmap strings pretty.

Local Open Scope Z_scope.
Set Warnings "-register-all".

(** ** Exceptions and fallible computations *)

Inductive exn : Type :=
| HTTPError (status_code : Z)        (* requests.HTTPError, from raise_for_status *)
| RequestException (detail : string) (* ConnectionError, Timeout, ... *)
| JSONDecodeError
| KeyError (key : string)
| AttributeError (attr : string)
| TypeError
| ValueError
| OverflowError
| ZeroDivisionError.

Inductive result (A : Type) : Type :=
| Ok (a : A)
| Raise (e : exn).
Arguments Ok {A} a.
Arguments Raise {A} e.

#[global] Instance result_ret : MRet result := fun A a => Ok a.
#[global] Instance result_bind : MBind result := fun A B f m =>
  match m with
  | Ok a => f a
  | Raise e => Raise e
  end.
#[global] Instance result_fmap : FMap result := fun A B f m =>
  match m with
  | Ok a => Ok (f a)
  | Raise e => Raise e
  end.

(** A comprehension whose body can raise: elements are evaluated left to
    right and the first exception ends the evaluation. *)
Fixpoint comprehension {A B : Type} (f : A -> result B) (l : list A)
  : result (list B) :=
  match l with
  | [] => Ok []
  | x :: l' => y ← f x; ys ← comprehension f l'; mret (y :: ys)
  end.

(** ** Python values *)

(** What [resp.json()] decodes to, and what a DataFrame cell holds. *)
Inductive pyval : Type :=
| PNone
| PBool (b : bool)
| PInt (z : Z)
| PFloat (f : spec_float)
| PStr (s : string)
| PList (xs : list pyval)
| PDict (items : list (string * pyval)).

(** Truth value of an object, as [or] and [if] test it. *)
Definition truthy (v : pyval) : bool :=
  match v with
  | PNone => false
  | PBool b => b
  | PInt z => negb (z =? 0)
  | PFloat (S754_zero _) => false
  | PFloat _ => true
  | PStr s => negb (String.eqb s "")
  | PList xs => match xs with [] => false | _ => true end
  | PDict items => match items with [] => false | _ => true end
  end.

(** [v == x] for a [str] [x]: only an equal [str] compares equal. *)
Definition py_eq_str (v : pyval) (x : string) : bool :=
  match v with
  | PStr s => String.eqb s x
  | _ => false
  end.

(** [a or b] *)
Definition py_or (a b : pyval) : pyval := if truthy a then a else b.

(** Lookup in a decoded JSON object (keys in document order). *)
Fixpoint assoc {A : Type} (k : string) (items : list (string * A)) : option A :=
  match items with
  | [] => None
  | (k', v) :: rest => if String.eqb k' k then Some v else assoc k rest
  end.

(** [d.get(key, default)]: only a dict has the method. *)
Definition py_get (d : pyval) (key : string) (default : pyval) : result pyval :=
  match d with
  | PDict items => Ok (from_option id default (assoc key items))
  | _ => Raise (AttributeError "get")
  end.

(** [c[key]] with a [str] key. *)
Definition py_getitem (c : pyval) (key : string) : result pyval :=
  match c with
  | PDict items =>
      match assoc key items with
      | Some v => Ok v
      | None => Raise (KeyError key)
      end
  | _ => Raise TypeError
  end.

(** [d.items()] *)
Definition py_items (d : pyval) : result (list (string * pyval)) :=
  match d with
  | PDict items => Ok items
  | _ => Raise (AttributeError "items")
  end.

(** [l[:n]] *)
Definition slice_to {A : Type} (n : Z) (l : list A) : list A :=
  if 0 <=? n then take (Z.to_nat n) l
  else take (Z.to_nat (Z.of_nat (length l) + n)) l.

(** [int(x)] of a float: truncation towards zero. *)
Definition int_of_float (f : spec_float) : result Z :=
  match f with
  | S754_zero _ => Ok 0
  | S754_infinity _ => Raise OverflowError
  | S754_nan => Raise ValueError
  | S754_finite s m e =>
      let magnitude :=
        if 0 <=? e then Z.shiftl (Z.pos m) e else Z.shiftr (Z.pos m) (- e) in
      Ok (if s then - magnitude else magnitude)
  end.

(** ** Text *)

(** [sub in s] on two [str]. *)
Fixpoint str_in (sub s : string) : bool :=
  String.prefix sub s
  || match s with
     | EmptyString => false
     | String _ s' => str_in sub s'
     end.

(** Containment as a proposition: [s] is [pre ++ sub ++ post]. *)
Definition substring_of (sub s : string) : Prop :=
  exists pre post : string, s = pre +:+ sub +:+ post.

(** ASCII instance of [str.upper]. *)
Definition ascii_upper (c : Ascii.ascii) : Ascii.ascii :=
  let n := Ascii.nat_of_ascii c in
  if ((97 <=? n) && (n <=? 122))%nat then Ascii.ascii_of_nat (n - 32) else c.

Fixpoint upper_ascii (s : string) : string :=
  match s with
  | EmptyString => EmptyString
  | String c s' => String (ascii_upper c) (upper_ascii s')
  end.

(** The ASCII characters [str.isspace] accepts: TAB, LF, VT, FF, CR,
    FS, GS, RS, US and the space. *)
Definition is_space (c : Ascii.ascii) : bool :=
  let n := Ascii.nat_of_ascii c in
  (((9 <=? n) && (n <=? 13)) || ((28 <=? n) && (n <=? 32)))%nat.

Fixpoint lstrip (s : string) : string :=
  match s with
  | EmptyString => EmptyString
  | String c s' => if is_space c then lstrip s' else s
  end.

Fixpoint rstrip (s : string) : string :=
  match s with
  | EmptyString => EmptyString
  | String c s' =>
      match rstrip s' with
      | EmptyString => if is_space c then EmptyString else String c EmptyString
      | r => String c r
      end
  end.

(** ASCII instance of [str.strip]. *)
Definition strip_ascii (s : string) : string := rstrip (lstrip s).

(** A byte that continues a character of the UTF-8 text (0x80 to 0xBF). *)
Definition continues_char (c : Ascii.ascii) : bool :=
  let n := Ascii.nat_of_ascii c in
  ((128 <=? n) && (n <=? 191))%nat.

(** [len(s)] of a [str]: the number of its characters, that is of the
    bytes that start one. *)
Fixpoint str_len (s : string) : nat :=
  match s with
  | EmptyString => O
  | String c s' => if continues_char c then str_len s' else S (str_len s')
  end.

(** [s.count(sub)] for a non-empty [sub]: occurrences that do not overlap,
    found left to right.  [skip] is the number of bytes still covered by
    the last occurrence. *)
Fixpoint str_count_from (skip : nat) (sub s : string) : Z :=
  match s with
  | EmptyString => 0
  | String _ s' =>
      match skip with
      | S k => str_count_from k sub s'
      | O =>
          if String.prefix sub s
          then 1 + str_count_from (Nat.pred (String.length sub)) sub s'
          else str_count_from O sub s'
      end
  end.

(** [forms.count(x)] for a [str] [x] *)
Definition py_count (forms : pyval) (x : string) : result Z :=
  match forms with
  | PList xs =>
      Ok (Z.of_nat (length (List.filter (fun v => py_eq_str v x) xs)))
  | PStr s => Ok (str_count_from O x s)
  | _ => Raise (AttributeError "count")
  end.

(** [len(forms)] *)
Definition py_len (forms : pyval) : result Z :=
  match forms with
  | PList xs => Ok (Z.of_nat (length xs))
  | PStr s => Ok (Z.of_nat (str_len s))
  | PDict items => Ok (Z.of_nat (length items))
  | _ => Raise TypeError
  end.

Definition zero_char : Ascii.ascii := Ascii.ascii_of_nat 48.
Definition plus_char : Ascii.ascii := Ascii.ascii_of_nat 43.
Definition minus_char : Ascii.ascii := Ascii.ascii_of_nat 45.

(** [s.zfill(width)]: zeros up to [width] characters, after a leading
    sign. *)
Definition zfill (width : nat) (s : string) : string :=
  let zeros := String.string_of_list_ascii (replicate (width - str_len s) zero_char) in
  match s with
  | String c s' =>
      if Ascii.eqb c plus_char || Ascii.eqb c minus_char
      then String c (zeros +:+ s')
      else zeros +:+ s
  | EmptyString => zeros
  end.

(** ** The tier classifier *)

(** [range(start, stop)] *)
Definition py_range : Type := Z * Z.

(** [x in range(start, stop)] *)
Definition in_range (x : Z) (r : py_range) : bool :=
  (fst r <=? x) && (x <? snd r).

Definition SIC_RANGES : list (py_range * Z) :=
  [ ((100, 1000), 0);
    ((2000, 2800), 1);
    ((2800, 3600), 1);
    ((3000, 3600), 3);
    ((3600, 3800), 2);
    ((3800, 4000), 2);
    ((5000, 5200), 3);
    ((5200, 5400), 4);
    ((5400, 5800), 4);
    ((5900, 6000), 4) ].

(** The [for] loop of [sic_to_tier] over a list of ranges. *)
Fixpoint scan_ranges (ranges : list (py_range * Z)) (sic : Z) : Z :=
  match ranges with
  | [] => 2
  | (sic_range, tier) :: rest =>
      if in_range sic sic_range then tier else scan_ranges rest sic
  end.

Definition sic_to_tier (sic : Z) : Z := scan_ranges SIC_RANGES sic.

(** ** The network *)

(** A response as the program reads it: the status, the body decoded by
    [resp.json()] ([None] when it is not JSON), and the page as
    [BeautifulSoup] sees it: [None] when there is no [<div id="mw-pages">],
    otherwise the [get_text(strip=True)] of each [<a>] inside it. *)
Record Response : Type := {
  status_code : Z;
  json_body : option pyval;
  mw_pages : option (list string)
}.

(** [resp.raise_for_status()] *)
Definition raise_for_status (resp : Response) : result unit :=
  if (400 <=? status_code resp) && (status_code resp <? 600)
  then Raise (HTTPError (status_code resp))
  else Ok tt.

(** [resp.json()] *)
Definition resp_json (resp : Response) : result pyval :=
  match json_body resp with
  | Some data => Ok data
  | None => Raise JSONDecodeError
  end.

(** ** Tables *)

(** A DataFrame: the length of its index and its columns in order.  The
    labels of the columns are distinct and a column holds Python objects
    (dtype [object]), as in the tables made of a list of dicts or read from
    a CSV file; the sum of an empty column of that kind is the Python
    [int] 0. *)
Record DataFrame : Type := {
  df_len : nat;
  df_columns : list (string * list pyval)
}.

(** [df[col]] *)
Definition df_getitem (df : DataFrame) (col : string) : result (list pyval) :=
  match assoc col (df_columns df) with
  | Some values => Ok values
  | None => Raise (KeyError col)
  end.

(** Column assignment: an existing column is replaced where it stands, a
    new one is added last. *)
Fixpoint set_column (col : string) (values : list pyval)
    (columns : list (string * list pyval)) : list (string * list pyval) :=
  match columns with
  | [] => [(col, values)]
  | (c, old) :: rest =>
      if String.eqb c col then (c, values) :: rest
      else (c, old) :: set_column col values rest
  end.

(** [df[col] = values] *)
Definition df_setitem (df : DataFrame) (col : string) (values : list pyval)
  : DataFrame :=
  {| df_len := df_len df; df_columns := set_column col values (df_columns df) |}.

(** Every column is as long as the index. *)
Definition well_formed (df : DataFrame) : Prop :=
  Forall (fun c => length (snd c) = df_len df) (df_columns df).

(** [a / b] on two Python [int]; the quotient is only logged, so the
    numerator and the divisor are returned as they are. *)
Definition py_truediv (a b : Z) : result (Z * Z) :=
  if b =? 0 then Raise ZeroDivisionError else Ok (a, b).

(** The sum of a column of [int]. *)
Definition sum_Z (l : list Z) : Z := foldr Z.add 0 l.

(** ** Records *)

(** A row of [bankruptcies.csv]; the DataFrame of these records is the list
    of its rows, empty when there is no record. *)
Record bankruptcy : Type := {
  b_name : string;
  b_year : Z;
  b_disrupted : Z;
  b_source : string
}.

(** A row of the ticker listing; the DataFrame [fetch_all_tickers] returns
    is only iterated over, and is the list of its rows. *)
Record ticker_row : Type := {
  t_cik : string;
  t_ticker : pyval;
  t_name : pyval
}.

(** The dict [fetch_company_metadata] returns; [ticker] is set by
    [build_company_dataset]. *)
Record company : Type := {
  cik : string;
  name : pyval;
  sic : Z;
  sic_description : pyval;
  state : pyval;
  n_10k : Z;
  n_8k : Z;
  n_total_filings : Z;
  tier : Z;
  ticker : option pyval
}.

Definition set_ticker (meta : company) (t : pyval) : company :=
  {| cik := cik meta; name := name meta; sic := sic meta;
     sic_description := sic_description meta; state := state meta;
     n_10k := n_10k meta; n_8k := n_8k meta;
     n_total_filings := n_total_filings meta; tier := tier meta;
     ticker := Some t |}.

(** [pd.DataFrame(records)] for the company dicts: no column at all when
    there is no record. *)
Definition DataFrame_of_companies (records : list company) : DataFrame :=
  match records with
  | [] => {| df_len := O; df_columns := [] |}
  | _ =>
      {| df_len := length records;
         df_columns :=
           [ ("cik", map (fun r => PStr (cik r)) records);
             ("name", map name records);
             ("sic", map (fun r => PInt (sic r)) records);
             ("sic_description", map sic_description records);
             ("state", map state records);
             ("n_10k", map (fun r => PInt (n_10k r)) records);
             ("n_8k", map (fun r => PInt (n_8k r)) records);
             ("n_total_filings", map (fun r => PInt (n_total_filings r)) records);
             ("tier", map (fun r => PInt (tier r)) records);
             ("ticker", map (fun r => from_option id PNone (ticker r)) records) ] |}
  end.

(** ** Logging of the Wikipedia scraper *)

Inductive level : Type := INFO | WARNING.

Inductive message : Type :=
| Scraping (year : Z) (url : string)
| HTTPSkipping (status : Z) (year : Z)
| FailedSkipping (year : Z) (e : exn)
| NoMwPages (year : Z)
| CompaniesFound (year_count : nat) (year : Z)
| Saved (total : nat).

Definition log : Type := list (level * message).

(** The year a warning is about. *)
Definition warning_year (entry : level * message) : option Z :=
  match entry with
  | (WARNING, HTTPSkipping _ year) => Some year
  | (WARNING, FailedSkipping year _) => Some year
  | (WARNING, NoMwPages year) => Some year
  | _ => None
  end.

(** ** URLs *)

Definition WIKI_CH11_URL (year : Z) : string :=
  "https://en.wikipedia.org/wiki/Category:"
  +:+ "Companies_that_filed_for_Chapter_11_bankruptcy_in_" +:+ pretty year.

Definition TICKERs_URL : string := "https://www.sec.gov/files/company_tickers.json".

Definition SUBMISSIONS_URL (cik : string) : string :=
  "https://data.sec.gov/submissions/CIK" +:+ cik +:+ ".json".

(** ** The program *)

Section Scraper.

(** [str.upper] and [str.strip] *)
Variables upper strip : string -> string.
(** [str(x)] of a decoded value *)
Variable py_str : pyval -> string.
(** [int(s)] of a [str]; [None] stands for [ValueError] *)
Variable int_of_str : string -> option Z.
(** [requests.Session.get(url, timeout=...)] *)
Variable session_get : string -> result Response.

(** [int(x)] *)
Definition py_int (x : pyval) : result Z :=
  match x with
  | PInt z => Ok z
  | PBool b => Ok (if b then 1 else 0)
  | PFloat f => int_of_float f
  | PStr s =>
      match int_of_str s with
      | Some z => Ok z
      | None => Raise ValueError
      end
  | PNone | PList _ | PDict _ => Raise TypeError
  end.

(** *** DisruptionLabelScraper *)

(** The records one page adds: a link is kept when its text is not
    empty. *)
Definition page_records (year : Z) (links : list string) : list bankruptcy :=
  map (fun name => {| b_name := name; b_year := year; b_disrupted := 1;
                      b_source := "wikipedia_ch11" |})
      (filter (fun name => name <> "") links).

(** The [for year in years] loop; [continue] is the recursive call on the
    remaining years with the records unchanged. *)
Fixpoint scrape_years (years : list Z) (all_records : list bankruptcy)
    (logged : log) : list bankruptcy * log :=
  match years with
  | [] => (all_records, logged)
  | year :: rest =>
      let url := WIKI_CH11_URL year in
      let logged := logged ++ [(INFO, Scraping year url)] in
      match (resp ← session_get url; _ ← raise_for_status resp; mret resp) with
      | Raise (HTTPError status) =>
          scrape_years rest all_records
            (logged ++ [(WARNING, HTTPSkipping status year)])
      | Raise e =>
          scrape_years rest all_records
            (logged ++ [(WARNING, FailedSkipping year e)])
      | Ok resp =>
          match mw_pages resp with
          | None =>
              scrape_years rest all_records
                (logged ++ [(WARNING, NoMwPages year)])
          | Some links =>
              let found := page_records year links in
              scrape_years rest (all_records ++ found)
                (logged ++ [(INFO, CompaniesFound (length found) year)])
          end
      end
  end.

(** [years] defaults to [range(2018, 2026)]. *)
Definition scrape_wikipedia_bankruptcies (years : option (list Z))
  : list bankruptcy * log :=
  let years := from_option id (seqZ 2018 8) years in
  let '(all_records, logged) := scrape_years years [] [] in
  (all_records, logged ++ [(INFO, Saved (length all_records))]).

(** [set(df["name"].str.upper().str.strip().dropna())], or [set()] when the
    table is empty. *)
Definition builld_disrupted_name_set (years : option (list Z))
  : gset string * log :=
  let '(df, logged) := scrape_wikipedia_bankruptcies years in
  match df with
  | [] => (∅, logged)
  | _ => (list_to_set (map (fun r => strip (upper (b_name r))) df), logged)
  end.

(** *** SECEdgarScraper *)

Definition fetch_all_tickers (max_companies : Z) : result (list ticker_row) :=
  resp ← session_get TICKERs_URL;
  _ ← raise_for_status resp;
  data ← resp_json resp;
  items ← py_items data;
  comprehension
    (fun '(i, c) =>
       cik_str ← py_getitem c "cik_str";
       ticker ← py_getitem c "ticker";
       title ← py_getitem c "title";
       mret {| t_cik := zfill 10 (py_str cik_str);
               t_ticker := ticker;
               t_name := title |})
    (slice_to max_companies items).

(** The body of the [try] in [fetch_company_metadata]. *)
Definition company_metadata (cik : string) : result company :=
  let url := SUBMISSIONS_URL cik in
  resp ← session_get url;
  _ ← raise_for_status resp;
  data ← resp_json resp;
  filings ← py_get data "filings" (PDict []);
  recent ← py_get filings "recent" (PDict []);
  forms ← py_get recent "form" (PList []);
  sic_field ← py_get data "sic" (PInt 0);
  sic ← py_int (py_or sic_field (PInt 0));
  name ← py_get data "name" (PStr "");
  sic_description ← py_get data "sicDescription" (PStr "");
  state ← py_get data "stateOfIncorporation" (PStr "");
  n_10k ← py_count forms "10-K";
  n_8k ← py_count forms "8-K";
  n_total_filings ← py_len forms;
  mret {| cik := cik; name := name; sic := sic;
          sic_description := sic_description; state := state;
          n_10k := n_10k; n_8k := n_8k;
          n_total_filings := n_total_filings;
          tier := sic_to_tier sic; ticker := None |}.

(** [except Exception] turns every failure into [None]. *)
Definition fetch_company_metadata (cik : string) : option company :=
  match company_metadata cik with
  | Ok meta => Some meta
  | Raise e => None
  end.

(** The [for i, row in tickers.iterrows()] loop. *)
Fixpoint collect_metadata (tickers : list ticker_row) (records : list company)
  : list company :=
  match tickers with
  | [] => records
  | row :: rest =>
      match fetch_company_metadata (t_cik row) with
      | Some meta => collect_metadata rest (records ++ [set_ticker meta (t_ticker row)])
      | None => collect_metadata rest records
      end
  end.

Definition build_company_dataset (max_companies : Z) : result DataFrame :=
  tickers ← fetch_all_tickers max_companies;
  let records := collect_metadata tickers [] in
  mret (DataFrame_of_companies records).

(** *** label_companies *)

(** [d in name_up or name_up in d] *)
Definition matches (name_up d : string) : bool :=
  str_in d name_up || str_in name_up d.

(** The inner function of [label_companies]. *)
Definition is_disrupted (disrupted_names : gset string) (name : string) : Z :=
  let name_up := strip (upper name) in
  Z.b2z (existsb (matches name_up) (elements disrupted_names)).

(** [is_disrupted] called on a cell of the name column: a cell that is not
    a [str] has no [upper]. *)
Definition is_disrupted_cell (disrupted_names : gset string) (cell : pyval)
  : result Z :=
  match cell with
  | PStr name => Ok (is_disrupted disrupted_names name)
  | _ => Raise (AttributeError "upper")
  end.

(** The table is read as one of object columns, where the sum of no
    label is the Python [int] 0; [label_companies_dtype] below takes the
    dtype of the name column into account. *)
Definition label_companies (companies : DataFrame)
    (disrupted_names : gset string) : result DataFrame :=
  names ← df_getitem companies "name";
  labels ← comprehension (is_disrupted_cell disrupted_names) names;
  let companies := df_setitem companies "disrupted" (map PInt labels) in
  let pos := sum_Z labels in
  _ ← py_truediv (100 * pos) (Z.of_nat (df_len companies));
  mret companies.

(** The matching rule in words: the normalized name is contained in some
    entry of the set, or some entry is contained in the normalized name. *)
Definition bidirectional_match (disrupted_names : gset string)
    (name : string) : Prop :=
  exists d : string,
    d ∈ disrupted_names
    /\ (substring_of (strip (upper name)) d
        \/ substring_of d (strip (upper name))).

(** *** The script *)

(** The [__main__] block up to the labelled table; the lines after it write
    and print it. *)
Definition main (max_companies : Z) (years : list Z) : result DataFrame :=
  companies ← build_company_dataset max_companies;
  let '(disrupted_names, _) := builld_disrupted_name_set (Some years) in
  label_companies companies disrupted_names.

(** *** Outcomes of a listing-page fetch *)

(** The three ways the fetch of a year fails: the request raises, the
    status is not a success, or the page has no container element. *)
Inductive year_fails (year : Z) : Prop :=
| fails_request (e : exn) :
    session_get (WIKI_CH11_URL year) = Raise e -> year_fails year
| fails_status (resp : Response) :
    session_get (WIKI_CH11_URL year) = Ok resp ->
    400 <= status_code resp < 600 -> year_fails year
| fails_container (resp : Response) :
    session_get (WIKI_CH11_URL year) = Ok resp ->
    mw_pages resp = None -> year_fails year.

(** The fetch of a year succeeds and the container holds [links]. *)
Definition year_lists (year : Z) (links : list string) : Prop :=
  exists resp : Response,
    session_get (WIKI_CH11_URL year) = Ok resp
    /\ raise_for_status resp = Ok tt
    /\ mw_pages resp = Some links.

End Scraper.

(** ** The dtype of the name column *)



Section Dtype.

Variables upper strip : string -> string.


End Dtype.

(** ** Fixtures for the examples *)

Definition page (links : list string) : Response :=
  {| status_code := 200; json_body := None; mw_pages := Some links |}.

Definition json_document (data : pyval) : Response :=
  {| status_code := 200; json_body := Some data; mw_pages := None |}.

Definition not_found : Response :=
  {| status_code := 404; json_body := None; mw_pages := None |}.

(** [str()] on the values the fixtures hold: an [int] prints in decimal, a
    [str] is itself. *)
Definition str_of_scalar (v : pyval) : string :=
  match v with
  | PInt z => pretty z
  | PStr s => s
  | _ => "None"
  end.

(** [int()] on a plain run of ASCII digits. *)
Fixpoint digits_value (acc : Z) (s : string) : option Z :=
  match s with
  | EmptyString => Some acc
  | String c s' =>
      let n := Ascii.nat_of_ascii c in
      if ((48 <=? n) && (n <=? 57))%nat
      then digits_value (10 * acc + Z.of_nat (n - 48)) s'
      else None
  end.

Definition int_of_digits (s : string) : option Z :=
  match s with
  | EmptyString => None
  | _ => digits_value 0 s
  end.

Definition listing : pyval :=
  PDict [ ("0", PDict [("cik_str", PInt 320193); ("ticker", PStr "AAPL");
                       ("title", PStr "Apple Inc.")]);
          ("1", PDict [("cik_str", PInt 2); ("ticker", PStr "ACME");
                       ("title", PStr "Acme Inc")]);
          ("2", PDict [("cik_str", PInt 3); ("ticker", PStr "BETA");
                       ("title", PStr "Beta LLC")]) ].

Definition apple_submissions : pyval :=
  PDict [ ("name", PStr "Apple Inc."); ("sic", PStr "3571");
          ("sicDescription", PStr "ELECTRONIC COMPUTERS");
          ("stateOfIncorporation", PStr "CA");
          ("filings", PDict [("recent",
             PDict [("form", PList [PStr "10-K"; PStr "8-K"; PStr "8-K"])])]) ].

(** A document without the industry code. *)
Definition acme_submissions : pyval :=
  PDict [ ("name", PStr "Acme Inc");
          ("filings", PDict [("recent", PDict [("form", PList [PStr "10-K"])])]) ].

(** A network where the listing page of 2020 answers 404 and the
    submissions of the third company cannot be fetched. *)
Definition example_session (url : string) : result Response :=
  if String.eqb url (WIKI_CH11_URL 2019) then Ok (page ["Acme"; ""; "Gamma Corp"])
  else if String.eqb url (WIKI_CH11_URL 2020) then Ok not_found
  else if String.eqb url (WIKI_CH11_URL 2021) then Ok (page ["Delta Air"])
  else if String.eqb url TICKERs_URL then Ok (json_document listing)
  else if String.eqb url (SUBMISSIONS_URL "0000320193")
  then Ok (json_document apple_submissions)
  else if String.eqb url (SUBMISSIONS_URL "0000000002")
  then Ok (json_document acme_submissions)
  else Raise (RequestException "connection refused").

(** A network where nothing can be reached. *)
Definition offline_session (url : string) : result Response :=
  Raise (RequestException "connection refused").

(** The end-to-end table of the specification. *)
Definition two_companies : DataFrame :=
  {| df_len := 2;
     df_columns := [("name", [PStr "Acme Inc"; PStr "Beta LLC"])] |}.

(** Documents with an edge each: a code that is [null], filings that are
    [null], a code that is no number, a name that is [null]. *)
Definition null_sic_submissions : pyval :=
  PDict [("name", PStr "Null Code Co"); ("sic", PNone)].

Definition null_filings_submissions : pyval :=
  PDict [("name", PStr "No Filings Co"); ("sic", PStr "5200");
         ("filings", PNone)].

Definition text_sic_submissions : pyval :=
  PDict [("name", PStr "Odd Code Co"); ("sic", PStr "n/a")].

Definition null_name_submissions : pyval :=
  PDict [("name", PNone); ("sic", PStr "5200")].

Definition edge_listing : pyval :=
  PDict [ ("0", PDict [("cik_str", PInt 10); ("ticker", PStr "NSC");
                       ("title", PStr "Null Code Co")]);
          ("1", PDict [("cik_str", PInt 11); ("ticker", PStr "NFC");
                       ("title", PStr "No Filings Co")]);
          ("2", PDict [("cik_str", PInt 12); ("ticker", PStr "OCC");
                       ("title", PStr "Odd Code Co")]);
          ("3", PDict [("cik_str", PInt 13); ("ticker", PStr "NNC");
                       ("title", PStr "Null Name Co")]) ].

Definition edge_session (url : string) : result Response :=
  if String.eqb url TICKERs_URL then Ok (json_document edge_listing)
  else if String.eqb url (SUBMISSIONS_URL "0000000010")
  then Ok (json_document null_sic_submissions)
  else if String.eqb url (SUBMISSIONS_URL "0000000011")
  then Ok (json_document null_filings_submissions)
  else if String.eqb url (SUBMISSIONS_URL "0000000012")
  then Ok (json_document text_sic_submissions)
  else if String.eqb url (SUBMISSIONS_URL "0000000013")
  then Ok (json_document null_name_submissions)
  else Raise (RequestException "connection refused").

(** A listing whose second entry has no ticker and whose third is no
    object. *)
Definition broken_listing : pyval :=
  PDict [ ("0", PDict [("cik_str", PInt 320193); ("ticker", PStr "AAPL");
                       ("title", PStr "Apple Inc.")]);
          ("1", PDict [("cik_str", PInt 7); ("title", PStr "No Ticker Co")]);
          ("2", PNone) ].

Definition broken_session (url : string) : result Response :=
  if String.eqb url TICKERs_URL then Ok (json_document broken_listing)
  else Raise (RequestException "connection refused").

(** A network where only the listing can be fetched. *)
Definition listing_only_session (url : string) : result Response :=
  if String.eqb url TICKERs_URL then Ok (json_document listing)
  else Raise (RequestException "connection refused").

(** ** Notions used to state further properties *)

Section Outcomes.

Variable py_str : pyval -> string.
Variable session_get : string -> result Response.

(** The links of the listing page of a year, [None] when the request
    raises, the status is refused or the container is missing. *)
Definition year_links (year : Z) : option (list string) :=
  match (resp ← session_get (WIKI_CH11_URL year);
         _ ← raise_for_status resp; mret resp) with
  | Ok resp => mw_pages resp
  | Raise _ => None
  end.

(** The records one year adds to [all_records]. *)
Definition year_records (year : Z) : list bankruptcy :=
  from_option (page_records year) [] (year_links year).

(** The dict the comprehension of [fetch_all_tickers] builds of one entry. *)
Definition ticker_record (c : pyval) : result ticker_row :=
  cik_str ← py_getitem c "cik_str";
  ticker ← py_getitem c "ticker";
  title ← py_getitem c "title";
  mret {| t_cik := zfill 10 (py_str cik_str);
          t_ticker := ticker;
          t_name := title |}.

End Outcomes.

(** An entry of the listing that is an object with the three keys read. *)
Definition has_listing_keys (c : pyval) : Prop :=
  exists fields : list (string * pyval),
    c = PDict fields
    /\ is_Some (assoc "cik_str" fields)
    /\ is_Some (assoc "ticker" fields)
    /\ is_Some (assoc "title" fields).

(** The number of companies an entry of the log reports as found. *)
Definition found_count (entry : level * message) : nat :=
  match entry with
  | (INFO, CompaniesFound year_count _) => year_count
  | _ => O
  end.

(** A cell that is a [str]. *)
Definition is_str (cell : pyval) : Prop := exists s : string, cell = PStr s.

(** * Properties *)

(** ** The tier classifier *)

(** The scan returns the fallback or a declared tier. *)
Lemma scan_ranges_tier (ranges : list (py_range * Z)) (sic : Z) :
  scan_ranges ranges sic = 2 \/ scan_ranges ranges sic ∈ map snd ranges.
Proof.
  induction ranges as [|[r t] rest IH]; simpl; [by left|].
  destruct (in_range sic r).
  - right. apply list_elem_of_here.
  - destruct IH as [IH|IH]; [by left|right]. by apply list_elem_of_further.
Qed.

(** A code that no range contains falls through to the fallback. *)
Lemma scan_ranges_fallback (ranges : list (py_range * Z)) (sic : Z) :
  (forall r t, (r, t) ∈ ranges -> in_range sic r = false) ->
  scan_ranges ranges sic = 2.
Proof.
  induction ranges as [|[r t] rest IH]; simpl; intros H; [done|].
  rewrite (H r t) by apply list_elem_of_here.
  apply IH. intros r' t' Hin. apply (H r' t'). by apply list_elem_of_further.
Qed.

(** The first range that contains the code decides, whatever follows. *)
Lemma scan_ranges_first_hit (before after : list (py_range * Z))
    (r : py_range) (t sic : Z) :
  (forall r' t', (r', t') ∈ before -> in_range sic r' = false) ->
  in_range sic r = true ->
  scan_ranges (before ++ (r, t) :: after) sic = t.
Proof.
  induction before as [|[r0 t0] before IH]; simpl; intros Hb Hr.
  - by rewrite Hr.
  - rewrite (Hb r0 t0) by apply list_elem_of_here.
    apply IH; [|done]. intros r' t' Hin. apply (Hb r' t').
    by apply list_elem_of_further.
Qed.


Ltac tier_cases :=
  unfold sic_to_tier, SIC_RANGES, scan_ranges, in_range; cbn [fst snd];
  repeat match goal with
    | |- context [(?a <=? ?b)] => destruct (Z.leb_spec a b); cbn [andb]; try lia
    | |- context [(?a <? ?b)] => destruct (Z.ltb_spec a b); cbn [andb]; try lia
    end.

(** The classifier written as the partition of the integers it induces. *)
Lemma sic_to_tier_cases (sic : Z) :
  (100 <= sic < 1000 /\ sic_to_tier sic = 0)
  \/ (2000 <= sic < 3600 /\ sic_to_tier sic = 1)
  \/ (3600 <= sic < 4000 /\ sic_to_tier sic = 2)
  \/ (5000 <= sic < 5200 /\ sic_to_tier sic = 3)
  \/ ((5200 <= sic < 5800 \/ 5900 <= sic < 6000) /\ sic_to_tier sic = 4)
  \/ ((sic < 100 \/ 1000 <= sic < 2000 \/ 4000 <= sic < 5000
       \/ 5800 <= sic < 5900 \/ 6000 <= sic) /\ sic_to_tier sic = 2).
Proof. tier_cases; lia. Qed.

(** C3. [sic_to_tier] is a total function of the integers (negative ones and
    zero included) whose value is always one of 0, 1, 2, 3, 4. *)
Theorem sic_to_tier_total (sic : Z) :
  sic_to_tier sic ∈ [0; 1; 2; 3; 4] /\ 0 <= sic_to_tier sic <= 4.
Proof.
  rewrite !elem_of_cons.
  destruct (scan_ranges_tier SIC_RANGES sic) as [H|H];
    fold (sic_to_tier sic) in H.
  - lia.
  - simpl in H. rewrite !elem_of_cons, elem_of_nil in H. lia.
Qed.



(** C10. The range (3000, 3600) with tier 3 is declared after the range
    (2800, 3600) with tier 1 and is shadowed by it: every code in
    [3000, 3600) gets tier 1, and tier 3 is returned exactly for the codes in
    [5000, 5200). *)
Theorem tier_3_range_shadowed (code : Z) :
  SIC_RANGES !! 2%nat = Some ((2800, 3600), 1)
  /\ SIC_RANGES !! 3%nat = Some ((3000, 3600), 3)
  /\ (3000 <= code < 3600 -> sic_to_tier code = 1)
  /\ (sic_to_tier code = 3 <-> 5000 <= code < 5200).
Proof.
  split; [reflexivity|]. split; [reflexivity|].
  destruct (sic_to_tier_cases code) as [H|[H|[H|[H|[H|H]]]]]; lia.
Qed.

Lemma tier_3_range_shadowed_witness :
  sic_to_tier 3000 = 1 /\ sic_to_tier 3599 = 1 /\ 5000 <= 5100 < 5200.
Proof.
  split; [apply (tier_3_range_shadowed 3000); lia|].
  split; [apply (tier_3_range_shadowed 3599); lia|].
  apply (tier_3_range_shadowed 5100). reflexivity.
Defined.

(** ** Text *)

Lemma append_String (c : Ascii.ascii) (s t : string) :
  String c s +:+ t = String c (s +:+ t).
Proof. reflexivity. Qed.

Lemma append_empty (t : string) : EmptyString +:+ t = t.
Proof. reflexivity. Qed.

Lemma prefix_app (sub s : string) :
  String.prefix sub s = true <-> exists post, s = sub +:+ post.
Proof.
  revert s. induction sub as [|a sub IH]; intros [|b s]; simpl.
  - split; [intros _; by exists EmptyString | done].
  - split; [intros _; by exists (String b s) | done].
  - split; [done | intros [post H]; discriminate H].
  - destruct (Ascii.ascii_dec a b) as [->|Hne].
    + rewrite IH. split; intros [post H]; exists post;
        rewrite append_String in *; congruence.
    + split; [done | intros [post H]; rewrite append_String in H; congruence].
Qed.

(** [str_in] decides containment. *)
Lemma str_in_spec (sub s : string) :
  str_in sub s = true <-> substring_of sub s.
Proof.
  unfold substring_of. induction s as [|c s IH].
  - change (str_in sub EmptyString) with (String.prefix sub EmptyString || false).
    rewrite orb_false_r, prefix_app. split.
    + intros [post H]. by exists EmptyString, post.
    + intros [pre [post H]]. destruct pre; [by exists post | discriminate H].
  - change (str_in sub (String c s))
      with (String.prefix sub (String c s) || str_in sub s).
    rewrite orb_true_iff, prefix_app, IH. split.
    + intros [[post H]|[pre [post H]]].
      * by exists EmptyString, post.
      * exists (String c pre), post. rewrite append_String. by rewrite H.
    + intros [pre [post H]]. destruct pre as [|c' pre].
      * left. by exists post.
      * right. exists pre, post. rewrite append_String in H. congruence.
Qed.

(** ** Tables *)

Lemma assoc_set_column_ne (col col' : string) (values : list pyval)
    (columns : list (string * list pyval)) :
  col <> col' ->
  assoc col' (set_column col values columns) = assoc col' columns.
Proof.
  intros Hne. induction columns as [|[c old] rest IH]; simpl.
  - destruct (String.eqb_spec col col'); [done | reflexivity].
  - destruct (String.eqb_spec c col) as [->|Hc]; simpl.
    + destruct (String.eqb_spec col col'); [done | reflexivity].
    + destruct (String.eqb_spec c col'); [reflexivity | apply IH].
Qed.

Lemma set_column_twice (col : string) (values : list pyval)
    (columns : list (string * list pyval)) :
  set_column col values (set_column col values columns)
  = set_column col values columns.
Proof.
  induction columns as [|[c old] rest IH]; simpl.
  - by rewrite String.eqb_refl.
  - destruct (String.eqb_spec c col) as [->|Hc]; simpl.
    + by rewrite String.eqb_refl.
    + destruct (String.eqb_spec c col); [done | by rewrite IH].
Qed.

(** A comprehension over [str] cells evaluates to the list of its values. *)
Lemma comprehension_map {A B : Type} (f : A -> result B) (g : A -> B)
    (l : list A) :
  (forall x, x ∈ l -> f x = Ok (g x)) ->
  comprehension f l = Ok (map g l).
Proof.
  induction l as [|x l IH]; simpl; intros H; [done|].
  rewrite (H x) by apply list_elem_of_here. simpl.
  rewrite IH; [done|]. intros y Hy. apply H. by apply list_elem_of_further.
Qed.

Lemma comprehension_length {A B : Type} (f : A -> result B) (l : list A)
    (ys : list B) :
  comprehension f l = Ok ys -> length ys = length l.
Proof.
  revert ys. induction l as [|x l IH]; simpl; intros ys H.
  - by injection H as <-.
  - destruct (f x) as [y|e]; simpl in H; [|discriminate].
    destruct (comprehension f l) as [ys'|e]; simpl in H; [|discriminate].
    injection H as <-. simpl. by rewrite (IH ys').
Qed.

(** ** The labeller *)

Lemma assoc_elem_of {A : Type} (k : string) (v : A) (items : list (string * A)) :
  assoc k items = Some v -> (k, v) ∈ items.
Proof.
  induction items as [|[k' v'] rest IH]; simpl; [done|].
  destruct (String.eqb_spec k' k) as [->|Hne].
  - intros [= ->]. apply list_elem_of_here.
  - intros H. apply list_elem_of_further. by apply IH.
Qed.

Section Labeller.

Variables upper strip : string -> string.

Lemma existsb_matches (disrupted_names : gset string) (name : string) :
  existsb (matches (strip (upper name))) (elements disrupted_names) = true
  <-> bidirectional_match upper strip disrupted_names name.
Proof.
  rewrite existsb_exists. unfold bidirectional_match, matches.
  split; intros [d [Hd Hm]]; exists d.
  - apply list_elem_of_In, elem_of_elements in Hd.
    apply orb_true_iff in Hm. rewrite !str_in_spec in Hm. tauto.
  - split; [by apply list_elem_of_In, elem_of_elements|].
    apply orb_true_iff. rewrite !str_in_spec. tauto.
Qed.

(** The label is 1 when the rule holds and 0 when it does not. *)
Lemma is_disrupted_rule (disrupted_names : gset string) (name : string) :
  (is_disrupted upper strip disrupted_names name = 1
   <-> bidirectional_match upper strip disrupted_names name)
  /\ (is_disrupted upper strip disrupted_names name = 0
      <-> ~ bidirectional_match upper strip disrupted_names name).
Proof.
  unfold is_disrupted. rewrite <- existsb_matches.
  destruct (existsb _ _); simpl; split; split; try done; intros H; by destruct H.
Qed.

(** The name column holds [str] cells: the labels are computed cell by
    cell. *)
Lemma comprehension_is_disrupted (disrupted_names : gset string)
    (names : list string) :
  comprehension (is_disrupted_cell upper strip disrupted_names) (map PStr names)
  = Ok (map (is_disrupted upper strip disrupted_names) names).
Proof.
  induction names as [|name names IH]; simpl; [done|]. by rewrite IH.
Qed.

Lemma comprehension_is_disrupted_inv (disrupted_names : gset string)
    (cells : list pyval) (labels : list Z) :
  comprehension (is_disrupted_cell upper strip disrupted_names) cells = Ok labels ->
  exists names : list string,
    cells = map PStr names
    /\ labels = map (is_disrupted upper strip disrupted_names) names.
Proof.
  revert labels. induction cells as [|cell cells IH]; simpl; intros labels H.
  - injection H as <-. by exists [].
  - destruct cell as [| | | |name| |]; simpl in H; try discriminate.
    destruct (comprehension _ cells) as [ls|e]; simpl in H; [|discriminate].
    injection H as <-. destruct (IH ls eq_refl) as [names [-> ->]].
    by exists (name :: names).
Qed.

(** When [label_companies] returns, and what. *)
Lemma label_companies_returns (companies labelled : DataFrame)
    (disrupted_names : gset string) :
  label_companies upper strip companies disrupted_names = Ok labelled
  <-> exists names : list string,
        assoc "name" (df_columns companies) = Some (map PStr names)
        /\ df_len companies <> O
        /\ labelled
           = df_setitem companies "disrupted"
               (map (fun name => PInt (is_disrupted upper strip disrupted_names name))
                    names).
Proof.
  unfold label_companies, df_getitem, py_truediv. split.
  - destruct (assoc "name" (df_columns companies)) as [cells|]; simpl;
      [|discriminate].
    destruct (comprehension _ cells) as [labels|e] eqn:Hc; simpl; [|discriminate].
    apply comprehension_is_disrupted_inv in Hc as [names [-> ->]].
    destruct (Z.eqb_spec (Z.of_nat (df_len companies)) 0); simpl; [discriminate|].
    intros [= <-]. exists names. rewrite map_map. split; [done|]. split; [lia|done].
  - intros [names [-> [Hlen ->]]]. simpl.
    rewrite comprehension_is_disrupted. simpl.
    destruct (Z.eqb_spec (Z.of_nat (df_len companies)) 0); [lia|].
    simpl. by rewrite map_map.
Qed.

(** C1. The label of a company is 1 exactly when its normalized name is
    contained in an entry of the set or an entry of the set is contained in
    it, and 0 otherwise; [label_companies] returns a table exactly when the
    name column holds text and there is at least one row, and the table is
    then the input with the column [disrupted] set to these labels. *)
Theorem label_companies_rule (companies : DataFrame)
    (disrupted_names : gset string) :
  (forall name : string,
     (is_disrupted upper strip disrupted_names name = 1
      <-> bidirectional_match upper strip disrupted_names name)
     /\ (is_disrupted upper strip disrupted_names name = 0
         <-> ~ bidirectional_match upper strip disrupted_names name))
  /\ (forall labelled : DataFrame,
        label_companies upper strip companies disrupted_names = Ok labelled
        <-> exists names : list string,
              assoc "name" (df_columns companies) = Some (map PStr names)
              /\ df_len companies <> O
              /\ labelled
                 = df_setitem companies "disrupted"
                     (map (fun name =>
                             PInt (is_disrupted upper strip disrupted_names name))
                          names)).
Proof.
  split.
  - intros name. apply is_disrupted_rule.
  - intros labelled. apply label_companies_returns.
Qed.

(** C6. Labelling is idempotent: labelling the output of [label_companies]
    again with the same set gives the same outcome as labelling once (the
    same table, or the same exception when the first call raises). *)
Theorem label_companies_idempotent (companies : DataFrame)
    (disrupted_names : gset string) :
  (labelled ← label_companies upper strip companies disrupted_names;
   label_companies upper strip labelled disrupted_names)
  = label_companies upper strip companies disrupted_names.
Proof.
  destruct (label_companies upper strip companies disrupted_names)
    as [labelled|e] eqn:Hfirst; simpl; [|done].
  apply label_companies_returns in Hfirst as [names [Hname [Hlen ->]]].
  apply label_companies_returns. exists names. split; [|split].
  - simpl. by rewrite assoc_set_column_ne.
  - done.
  - unfold df_setitem; simpl. by rewrite set_column_twice.
Qed.

(** A table without rows is never labelled: without a name column the
    column lookup raises, with one the division by the length does. *)
Lemma label_companies_no_rows (companies : DataFrame)
    (disrupted_names : gset string) :
  df_len companies = O ->
  well_formed companies ->
  label_companies upper strip companies disrupted_names
  = match assoc "name" (df_columns companies) with
    | None => Raise (KeyError "name")
    | Some _ => Raise ZeroDivisionError
    end.
Proof.
  intros Hlen Hwf. unfold label_companies, df_getitem.
  destruct (assoc "name" (df_columns companies)) as [cells|] eqn:Hname;
    simpl; [|done].
  apply assoc_elem_of in Hname. unfold well_formed in Hwf.
  rewrite Forall_forall in Hwf. specialize (Hwf _ Hname). simpl in Hwf.
  rewrite Hlen in Hwf. apply length_zero_iff_nil in Hwf as ->. simpl.
  by rewrite Hlen.
Qed.

End Labeller.

(** ** The fetchers *)

Section Fetching.

Variables upper strip : string -> string.
Variable py_str : pyval -> string.
Variable int_of_str : string -> option Z.
Variable session_get : string -> result Response.

Ltac skipped := eexists; split; [|reflexivity]; reflexivity.

(** A year whose fetch fails adds a warning about that year and no record;
    the loop goes on with the remaining years. *)
Lemma scrape_years_failed (year : Z) (rest : list Z)
    (all_records : list bankruptcy) (logged : log) :
  year_fails session_get year ->
  exists entry : level * message,
    warning_year entry = Some year
    /\ scrape_years session_get (year :: rest) all_records logged
       = scrape_years session_get rest all_records
           ((logged ++ [(INFO, Scraping year (WIKI_CH11_URL year))]) ++ [entry]).
Proof.
  intros [e He|resp Hresp Hstatus|resp Hresp Hdiv]; simpl.
  - rewrite He; simpl. destruct e; skipped.
  - rewrite Hresp; simpl. unfold raise_for_status.
    destruct (Z.leb_spec 400 (status_code resp)); [|lia].
    destruct (Z.ltb_spec (status_code resp) 600); [|lia]. simpl. skipped.
  - rewrite Hresp; simpl. destruct (raise_for_status resp) as [[]|e]; simpl.
    + rewrite Hdiv. skipped.
    + destruct e; skipped.
Qed.

(** A year whose page is fetched adds the records of its links. *)
Lemma scrape_years_listed (year : Z) (links : list string) (rest : list Z)
    (all_records : list bankruptcy) (logged : log) :
  year_lists session_get year links ->
  scrape_years session_get (year :: rest) all_records logged
  = scrape_years session_get rest (all_records ++ page_records year links)
      ((logged ++ [(INFO, Scraping year (WIKI_CH11_URL year))])
       ++ [(INFO, CompaniesFound (length (page_records year links)) year)]).
Proof.
  intros [resp [Hresp [Hstatus Hlinks]]]. simpl.
  rewrite Hresp; simpl. rewrite Hstatus; simpl. by rewrite Hlinks.
Qed.

Lemma page_records_names (year : Z) (links : list string) :
  map b_name (page_records year links) = filter (fun name => name <> "") links.
Proof. unfold page_records. rewrite map_map. simpl. apply map_id. Qed.

(** The set is made of the normalized names of the records, whether or not
    there are any. *)
Lemma name_set_of_records (years : option (list Z)) :
  fst (builld_disrupted_name_set upper strip session_get years)
  = list_to_set
      (map (fun name => strip (upper name))
           (map b_name
                (fst (scrape_wikipedia_bankruptcies session_get years)))).
Proof.
  unfold builld_disrupted_name_set.
  destruct (scrape_wikipedia_bankruptcies session_get years) as [df logged].
  destruct df; simpl; [done|]. by rewrite map_map.
Qed.

Lemma name_set_log (years : option (list Z)) :
  snd (builld_disrupted_name_set upper strip session_get years)
  = snd (scrape_wikipedia_bankruptcies session_get years).
Proof.
  unfold builld_disrupted_name_set.
  destruct (scrape_wikipedia_bankruptcies session_get years) as [df logged].
  by destruct df.
Qed.

(** The industry code read from a document that has none. *)
Lemma missing_sic_is_zero (items : list (string * pyval)) :
  assoc "sic" items = None ->
  (sic_field ← py_get (PDict items) "sic" (PInt 0);
   py_int int_of_str (py_or sic_field (PInt 0))) = Ok 0.
Proof. intros H. simpl. by rewrite H. Qed.

(** A fetched document with a list of forms gives a record. *)
Lemma company_metadata_returns (filer : string) (resp : Response)
    (items : list (string * pyval)) (filings recent : pyval)
    (forms : list pyval) (code : Z) :
  session_get (SUBMISSIONS_URL filer) = Ok resp ->
  raise_for_status resp = Ok tt ->
  json_body resp = Some (PDict items) ->
  py_get (PDict items) "filings" (PDict []) = Ok filings ->
  py_get filings "recent" (PDict []) = Ok recent ->
  py_get recent "form" (PList []) = Ok (PList forms) ->
  py_int int_of_str (py_or (from_option id (PInt 0) (assoc "sic" items)) (PInt 0))
  = Ok code ->
  exists meta : company,
    company_metadata int_of_str session_get filer = Ok meta
    /\ cik meta = filer /\ sic meta = code /\ tier meta = sic_to_tier code.
Proof.
  intros Hresp Hstatus Hjson Hfilings Hrecent Hforms Hsic.
  unfold company_metadata, resp_json.
  rewrite Hresp; cbn [mbind result_bind]. rewrite Hstatus; cbn [mbind result_bind].
  rewrite Hjson; cbn [mbind result_bind].
  rewrite Hfilings; cbn [mbind result_bind].
  rewrite Hrecent; cbn [mbind result_bind].
  rewrite Hforms; cbn [mbind result_bind].
  cbn [py_get mbind result_bind]. rewrite Hsic. cbn.
  eexists. split; [reflexivity|]. by cbn.
Qed.

(** C5. A code that none of the declared ranges contains, the code 0 of an
    unknown industry among them, gets tier 2; and a metadata document
    without the field of the industry code gives a record (it is not
    dropped) whose code is 0 and whose tier is 2. *)
Theorem unknown_code_falls_back :
  (forall code : Z,
     (forall r t, (r, t) ∈ SIC_RANGES -> in_range code r = false) ->
     sic_to_tier code = 2)
  /\ sic_to_tier 0 = 2
  /\ (forall (filer : string) (resp : Response) (items : list (string * pyval))
        (filings recent : pyval) (forms : list pyval),
        session_get (SUBMISSIONS_URL filer) = Ok resp ->
        raise_for_status resp = Ok tt ->
        json_body resp = Some (PDict items) ->
        assoc "sic" items = None ->
        py_get (PDict items) "filings" (PDict []) = Ok filings ->
        py_get filings "recent" (PDict []) = Ok recent ->
        py_get recent "form" (PList []) = Ok (PList forms) ->
        exists meta : company,
          fetch_company_metadata int_of_str session_get filer = Some meta
          /\ sic meta = 0 /\ tier meta = 2).
Proof.
  split; [|split].
  - intros code Hnone. by apply scan_ranges_fallback.
  - reflexivity.
  - intros filer resp items filings recent forms
      Hresp Hstatus Hjson Hsic Hfilings Hrecent Hforms.
    destruct (company_metadata_returns filer resp items filings recent forms 0)
      as [meta [Hmeta [_ [Hcode Htier]]]]; try done.
    { by rewrite Hsic. }
    exists meta. unfold fetch_company_metadata. rewrite Hmeta.
    split; [done|]. split; [done|]. by rewrite Htier.
Qed.

(** A row whose metadata cannot be fetched is left out. *)
Lemma collect_metadata_failed (row : ticker_row) (rest : list ticker_row)
    (records : list company) (e : exn) :
  company_metadata int_of_str session_get (t_cik row) = Raise e ->
  fetch_company_metadata int_of_str session_get (t_cik row) = None
  /\ collect_metadata int_of_str session_get (row :: rest) records
     = collect_metadata int_of_str session_get rest records.
Proof.
  intros H. unfold fetch_company_metadata. simpl.
  unfold fetch_company_metadata. by rewrite H.
Qed.

(** C8. An exception of [fetch_all_tickers], raised by the request, by the
    status check or while the listing is decoded, is the outcome of
    [build_company_dataset] and of the whole script: nothing catches it.
    Any other fetch failure is caught: when the listing is fetched,
    [build_company_dataset] returns whatever the submissions requests do, a
    company whose metadata cannot be fetched is left out, and a year whose
    page cannot be fetched is skipped. *)
Theorem bulk_listing_fetch_unguarded (max_companies : Z) (years : list Z) :
  (forall e : exn,
     fetch_all_tickers py_str session_get max_companies = Raise e ->
     build_company_dataset py_str int_of_str session_get max_companies = Raise e
     /\ main upper strip py_str int_of_str session_get max_companies years
        = Raise e)
  /\ (forall e : exn,
        session_get TICKERs_URL = Raise e ->
        fetch_all_tickers py_str session_get max_companies = Raise e)
  /\ (forall resp : Response,
        session_get TICKERs_URL = Ok resp ->
        400 <= status_code resp < 600 ->
        fetch_all_tickers py_str session_get max_companies
        = Raise (HTTPError (status_code resp)))
  /\ (forall resp : Response,
        session_get TICKERs_URL = Ok resp ->
        raise_for_status resp = Ok tt ->
        json_body resp = None ->
        fetch_all_tickers py_str session_get max_companies = Raise JSONDecodeError)
  /\ (forall tickers : list ticker_row,
        fetch_all_tickers py_str session_get max_companies = Ok tickers ->
        build_company_dataset py_str int_of_str session_get max_companies
        = Ok (DataFrame_of_companies
                (collect_metadata int_of_str session_get tickers [])))
  /\ (forall (row : ticker_row) (rest : list ticker_row)
         (records : list company) (e : exn),
        company_metadata int_of_str session_get (t_cik row) = Raise e ->
        fetch_company_metadata int_of_str session_get (t_cik row) = None
        /\ collect_metadata int_of_str session_get (row :: rest) records
           = collect_metadata int_of_str session_get rest records)
  /\ (forall (year : Z) (rest : list Z) (all_records : list bankruptcy)
         (logged : log),
        year_fails session_get year ->
        exists logged' : log,
          scrape_years session_get (year :: rest) all_records logged
          = scrape_years session_get rest all_records logged').
Proof.
  split; [|split; [|split; [|split; [|split; [|split]]]]].
  - intros e H. unfold main, build_company_dataset. by rewrite H.
  - intros e H. unfold fetch_all_tickers. by rewrite H.
  - intros resp H Hstatus. unfold fetch_all_tickers, raise_for_status.
    rewrite H; simpl.
    destruct (Z.leb_spec 400 (status_code resp)); [|lia].
    by destruct (Z.ltb_spec (status_code resp) 600); [|lia].
  - intros resp H Hstatus Hjson. unfold fetch_all_tickers, resp_json.
    rewrite H; simpl. rewrite Hstatus; simpl. by rewrite Hjson.
  - intros tickers H. unfold build_company_dataset. by rewrite H.
  - intros row rest records e H. by apply collect_metadata_failed with (e := e).
  - intros year rest all_records logged H.
    destruct (scrape_years_failed year rest all_records logged H)
      as [entry [_ ->]]. eauto.
Qed.

End Fetching.

(** ** The matcher on one entry *)

Lemma is_disrupted_singleton (upper strip : string -> string) (A B : string) :
  is_disrupted upper strip {[B]} A = Z.b2z (matches (strip (upper A)) B).
Proof.
  unfold is_disrupted. rewrite elements_singleton. simpl.
  by rewrite orb_false_r.
Qed.

(** C2, as the code has it. The entries of the set are taken as they are
    and only the company name is uppercased and trimmed: for an entry [B]
    that is already uppercased and trimmed, the matcher reports a match
    exactly when [B] is contained in the normalized [A] or the normalized
    [A] is contained in [B]; so "Acme Corp" matches ACME, "Acme" matches
    ACME CORP HOLDINGS and "Zeta" does not match ACME. *)
Theorem is_disrupted_bidirectional (upper strip : string -> string)
    (A B : string) :
  strip (upper B) = B ->
  (is_disrupted upper strip {[B]} A = 1
   <-> substring_of (strip (upper B)) (strip (upper A))
       \/ substring_of (strip (upper A)) (strip (upper B)))
  /\ is_disrupted upper_ascii strip_ascii {["ACME"]} "Acme Corp" = 1
  /\ is_disrupted upper_ascii strip_ascii {["ACME CORP HOLDINGS"]} "Acme" = 1
  /\ is_disrupted upper_ascii strip_ascii {["ACME"]} "Zeta" = 0.
Proof.
  intros HB. split; [|by vm_compute].
  rewrite is_disrupted_singleton, HB. unfold matches.
  rewrite <- !str_in_spec, <- orb_true_iff.
  by destruct (_ || _).
Qed.

Lemma is_disrupted_bidirectional_witness :
  is_disrupted upper_ascii strip_ascii {["ACME"]} " acme corp " = 1.
Proof.
  apply (proj1 (is_disrupted_bidirectional upper_ascii strip_ascii
                  " acme corp " "ACME" eq_refl)).
  left. apply str_in_spec. reflexivity.
Defined.

(** The entry is not normalized by the matcher: "Acme" is contained in
    "Acme Corp Holdings" once both are uppercased, and is not matched. *)
Lemma is_disrupted_entry_taken_as_is :
  is_disrupted upper_ascii strip_ascii {["Acme Corp Holdings"]} "Acme" = 0
  /\ ~ (forall A B : string,
          is_disrupted upper_ascii strip_ascii {[B]} A = 1
          <-> substring_of (strip_ascii (upper_ascii B)) (strip_ascii (upper_ascii A))
              \/ substring_of (strip_ascii (upper_ascii A))
                   (strip_ascii (upper_ascii B))).
Proof.
  split; [by vm_compute|]. intros H.
  assert (Hmatch : is_disrupted upper_ascii strip_ascii {["Acme Corp Holdings"]} "Acme" = 1).
  { apply H. right. apply str_in_spec. reflexivity. }
  vm_compute in Hmatch. discriminate Hmatch.
Qed.

(** ** Tables without rows *)





(** ** The fixtures, end to end *)

Lemma label_companies_rule_witness :
  label_companies upper_ascii strip_ascii two_companies {["ACME"; "GAMMA CORP"]}
  = Ok {| df_len := 2;
          df_columns := [("name", [PStr "Acme Inc"; PStr "Beta LLC"]);
                         ("disrupted", [PInt 1; PInt 0])] |}.
Proof.
  apply (proj2 (label_companies_rule upper_ascii strip_ascii two_companies
                  {["ACME"; "GAMMA CORP"]})).
  exists ["Acme Inc"; "Beta LLC"].
  split; [reflexivity|]. split; [discriminate|]. vm_compute. reflexivity.
Defined.

(** Labelling the labelled table of the fixture again changes nothing. *)
Example relabel_two_companies :
  exists labelled : DataFrame,
    label_companies upper_ascii strip_ascii two_companies {["ACME"; "GAMMA CORP"]}
    = Ok labelled
    /\ label_companies upper_ascii strip_ascii labelled {["ACME"; "GAMMA CORP"]}
       = Ok labelled.
Proof. eexists. split; vm_compute; reflexivity. Qed.

(** An empty set labels every company 0. *)
Example empty_set_labels_zero :
  label_companies upper_ascii strip_ascii two_companies ∅
  = Ok (df_setitem two_companies "disrupted" [PInt 0; PInt 0]).
Proof. vm_compute. reflexivity. Qed.

Example tiers_of_some_codes :
  map sic_to_tier [-5; 0; 100; 999; 1000; 2799; 2800; 3000; 3599; 3600; 5000; 5199;
                   5800; 5999; 6000]
  = [2; 2; 0; 0; 2; 1; 1; 1; 1; 2; 3; 3; 2; 4; 2].
Proof. reflexivity. Qed.

Lemma unknown_code_falls_back_witness :
  sic_to_tier 4500 = 2
  /\ exists meta : company,
       fetch_company_metadata int_of_digits example_session "0000000002" = Some meta
       /\ sic meta = 0 /\ tier meta = 2.
Proof.
  split.
  - apply (proj1 (unknown_code_falls_back int_of_digits example_session) 4500).
    intros r t Hin. unfold SIC_RANGES in Hin.
    rewrite !elem_of_cons, elem_of_nil in Hin.
    destruct Hin as [H|[H|[H|[H|[H|[H|[H|[H|[H|[H|[]]]]]]]]]]];
      injection H as -> ->; reflexivity.
  - apply (proj2 (proj2 (unknown_code_falls_back int_of_digits example_session))
             "0000000002" (json_document acme_submissions)
             [("name", PStr "Acme Inc");
              ("filings", PDict [("recent", PDict [("form", PList [PStr "10-K"])])])]
             (PDict [("recent", PDict [("form", PList [PStr "10-K"])])])
             (PDict [("form", PList [PStr "10-K"])])
             [PStr "10-K"]); reflexivity.
Defined.

Lemma bulk_listing_fetch_unguarded_witness :
  build_company_dataset str_of_scalar int_of_digits offline_session 2500
  = Raise (RequestException "connection refused")
  /\ main upper_ascii strip_ascii str_of_scalar int_of_digits offline_session
       2500 [2019; 2020; 2021]
     = Raise (RequestException "connection refused").
Proof.
  apply (proj1 (bulk_listing_fetch_unguarded upper_ascii strip_ascii
                  str_of_scalar int_of_digits offline_session 2500
                  [2019; 2020; 2021])).
  reflexivity.
Defined.

(** With the listing fetched, the script goes through although one year
    and one company cannot be fetched. *)
Example main_on_the_fixture :
  main upper_ascii strip_ascii str_of_scalar int_of_digits example_session
    2500 [2019; 2020; 2021]
  = Ok (df_setitem
          (DataFrame_of_companies
             (collect_metadata int_of_digits example_session
                [ {| t_cik := "0000320193"; t_ticker := PStr "AAPL";
                     t_name := PStr "Apple Inc." |};
                  {| t_cik := "0000000002"; t_ticker := PStr "ACME";
                     t_name := PStr "Acme Inc" |} ] []))
          "disrupted" [PInt 0; PInt 1]).
Proof. vm_compute. reflexivity. Qed.

(** ** The entries the builder hands over are normalized *)

Ltac each_ascii c :=
  destruct c as [[] [] [] [] [] [] [] []]; reflexivity.

Lemma ascii_upper_idempotent (c : Ascii.ascii) :
  ascii_upper (ascii_upper c) = ascii_upper c.
Proof. each_ascii c. Qed.

Lemma is_space_upper (c : Ascii.ascii) : is_space (ascii_upper c) = is_space c.
Proof. each_ascii c. Qed.

Lemma upper_ascii_idempotent (s : string) :
  upper_ascii (upper_ascii s) = upper_ascii s.
Proof.
  induction s as [|c s IH]; simpl; [done|].
  by rewrite ascii_upper_idempotent, IH.
Qed.

Lemma upper_lstrip (s : string) : upper_ascii (lstrip s) = lstrip (upper_ascii s).
Proof.
  induction s as [|c s IH]; simpl; [done|].
  rewrite is_space_upper. by destruct (is_space c).
Qed.

Lemma upper_rstrip (s : string) : upper_ascii (rstrip s) = rstrip (upper_ascii s).
Proof.
  induction s as [|c s IH]; simpl; [done|].
  rewrite <- IH, is_space_upper.
  destruct (rstrip s); simpl; [by destruct (is_space c)|done].
Qed.

Lemma rstrip_idempotent (s : string) : rstrip (rstrip s) = rstrip s.
Proof.
  induction s as [|c s IH]; simpl; [done|].
  destruct (rstrip s) as [|d r] eqn:Hr.
  - destruct (is_space c) eqn:Hc; simpl; [done|]. by rewrite Hc.
  - change (rstrip (String c (String d r)))
      with (match rstrip (String d r) with
            | EmptyString => if is_space c then EmptyString else String c EmptyString
            | r' => String c r'
            end).
    by rewrite IH.
Qed.

(** What [lstrip] leaves does not start with a space, and [rstrip] keeps
    such a start. *)
Lemma lstrip_rstrip_lstrip (s : string) :
  lstrip (rstrip (lstrip s)) = rstrip (lstrip s).
Proof.
  induction s as [|c s IH]; simpl; [done|].
  destruct (is_space c) eqn:Hc; [done|]. simpl.
  destruct (rstrip s); rewrite ?Hc; simpl; by rewrite Hc.
Qed.

Lemma strip_ascii_idempotent (s : string) :
  strip_ascii (strip_ascii s) = strip_ascii s.
Proof.
  unfold strip_ascii. by rewrite lstrip_rstrip_lstrip, rstrip_idempotent.
Qed.

Lemma normalize_idempotent (s : string) :
  strip_ascii (upper_ascii (strip_ascii (upper_ascii s)))
  = strip_ascii (upper_ascii s).
Proof.
  unfold strip_ascii at 2.
  rewrite upper_rstrip, upper_lstrip, upper_ascii_idempotent.
  apply strip_ascii_idempotent.
Qed.

(** Every entry of the set [builld_disrupted_name_set] returns is already
    uppercased and trimmed, which is what the matcher relies on. *)
Lemma built_names_normalized (session_get : string -> result Response)
    (years : option (list Z)) (d : string) :
  d ∈ fst (builld_disrupted_name_set upper_ascii strip_ascii session_get years) ->
  strip_ascii (upper_ascii d) = d.
Proof.
  rewrite name_set_of_records, elem_of_list_to_set, list_elem_of_fmap.
  intros [name [-> _]]. apply normalize_idempotent.
Qed.

(** * Further properties *)

(** ** The listing pages, year by year *)

Section Years.

Variables upper strip : string -> string.
Variable session_get : string -> result Response.

Lemma year_links_lists (year : Z) (links : list string) :
  year_links session_get year = Some links <-> year_lists session_get year links.
Proof.
  unfold year_links, year_lists. split.
  - destruct (session_get (WIKI_CH11_URL year)) as [resp|e]; simpl; [|done].
    destruct (raise_for_status resp) as [[]|e] eqn:Hstatus; simpl; [|done].
    intros H. by exists resp.
  - intros [resp [Hresp [Hstatus H]]]. rewrite Hresp; simpl. by rewrite Hstatus.
Qed.

Lemma year_links_fails (year : Z) :
  year_links session_get year = None <-> year_fails session_get year.
Proof.
  unfold year_links. split.
  - destruct (session_get (WIKI_CH11_URL year)) as [resp|e] eqn:Hresp; simpl.
    + unfold raise_for_status.
      destruct (Z.leb_spec 400 (status_code resp));
        destruct (Z.ltb_spec (status_code resp) 600); simpl; intros Hdiv.
      * by apply fails_status with resp.
      * by apply fails_container with resp.
      * by apply fails_container with resp.
      * by apply fails_container with resp.
    + intros _. by apply fails_request with e.
  - intros [e He|resp Hresp Hstatus|resp Hresp Hdiv]; rewrite ?He, ?Hresp; simpl.
    + done.
    + unfold raise_for_status.
      destruct (Z.leb_spec 400 (status_code resp)); [|lia].
      by destruct (Z.ltb_spec (status_code resp) 600); [|lia].
    + by destruct (raise_for_status resp) as [[]|e].
Qed.

(** One turn of the loop: the records of the year are appended, and the
    entry logged after the announcement is a warning about the year exactly
    when its fetch fails, and otherwise the count of the records found. *)
Lemma scrape_years_step (year : Z) (rest : list Z)
    (all_records : list bankruptcy) (logged : log) :
  exists entry : level * message,
    scrape_years session_get (year :: rest) all_records logged
    = scrape_years session_get rest
        (all_records ++ year_records session_get year)
        ((logged ++ [(INFO, Scraping year (WIKI_CH11_URL year))]) ++ [entry])
    /\ warning_year entry
       = (if year_links session_get year is Some _ then None else Some year)
    /\ found_count entry = length (year_records session_get year).
Proof.
  unfold year_records, year_links. simpl.
  destruct (session_get (WIKI_CH11_URL year)) as [resp|e]; simpl.
  - destruct (raise_for_status resp) as [[]|e]; simpl.
    + destruct (mw_pages resp) as [links|]; simpl;
        eexists; (split; [rewrite ?app_nil_r; reflexivity|done]).
    + destruct e; eexists; (split; [rewrite ?app_nil_r; reflexivity|done]).
  - destruct e; eexists; (split; [rewrite ?app_nil_r; reflexivity|done]).
Qed.

(** The records are those of the years, in the order of the years. *)
Lemma scrape_years_records (years : list Z) (all_records : list bankruptcy)
    (logged : log) :
  fst (scrape_years session_get years all_records logged)
  = all_records ++ (years ≫= year_records session_get).
Proof.
  revert all_records logged.
  induction years as [|year rest IH]; intros all_records logged.
  - simpl. by rewrite app_nil_r.
  - destruct (scrape_years_step year rest all_records logged) as [entry [-> _]].
    rewrite IH. simpl. by rewrite app_assoc.
Qed.

(** The warnings are about the years that fail, in the order of the years,
    and the counts logged add up to the records found. *)
Lemma scrape_years_log (years : list Z) (all_records : list bankruptcy)
    (logged : log) :
  omap warning_year (snd (scrape_years session_get years all_records logged))
  = omap warning_year logged
    ++ filter (fun year => year_links session_get year = None) years
  /\ sum_list_with found_count
       (snd (scrape_years session_get years all_records logged))
     = (sum_list_with found_count logged
        + length (years ≫= year_records session_get))%nat.
Proof.
  revert all_records logged.
  induction years as [|year rest IH]; intros all_records logged.
  - simpl. rewrite app_nil_r. split; [done|lia].
  - destruct (scrape_years_step year rest all_records logged)
      as [entry [-> [Hwarn Hcount]]].
    destruct (IH (all_records ++ year_records session_get year)
                ((logged ++ [(INFO, Scraping year (WIKI_CH11_URL year))])
                 ++ [entry])) as [-> ->].
    rewrite !omap_app, !sum_list_with_app. simpl.
    rewrite Hwarn, Hcount, filter_cons, length_app.
    split; [|unfold mbind; lia]. rewrite <- !app_assoc. f_equal.
    destruct (year_links session_get year); by case_decide.
Qed.

Lemma scrape_wikipedia_records (years : list Z) :
  fst (scrape_wikipedia_bankruptcies session_get (Some years))
  = years ≫= year_records session_get.
Proof.
  unfold scrape_wikipedia_bankruptcies. cbn [from_option id].
  pose proof (scrape_years_records years [] []) as H.
  destruct (scrape_years session_get years [] []) as [records logged].
  simpl in *. by rewrite H.
Qed.

Lemma scrape_wikipedia_log (years : list Z) :
  snd (scrape_wikipedia_bankruptcies session_get (Some years))
  = snd (scrape_years session_get years [] [])
    ++ [(INFO, Saved (length (years ≫= year_records session_get)))].
Proof.
  unfold scrape_wikipedia_bankruptcies. cbn [from_option id].
  pose proof (scrape_years_records years [] []) as H.
  destruct (scrape_years session_get years [] []) as [records logged].
  simpl in *. by rewrite H.
Qed.

Lemma name_set_of_years (years : list Z) :
  fst (builld_disrupted_name_set upper strip session_get (Some years))
  = list_to_set
      (map (fun r => strip (upper (b_name r)))
           (years ≫= year_records session_get)).
Proof.
  rewrite name_set_of_records, scrape_wikipedia_records. by rewrite map_map.
Qed.

(** What is logged stays logged, and every year is announced. *)
Lemma scrape_years_keeps_log (years : list Z) (all_records : list bankruptcy)
    (logged : log) (entry : level * message) :
  entry ∈ logged ->
  entry ∈ snd (scrape_years session_get years all_records logged).
Proof.
  revert all_records logged.
  induction years as [|year rest IH]; intros all_records logged Hin; [done|].
  destruct (scrape_years_step year rest all_records logged) as [e [-> _]].
  apply IH. rewrite !elem_of_app. by left; left.
Qed.

Lemma scrape_years_announces (years : list Z) (all_records : list bankruptcy)
    (logged : log) (year : Z) :
  year ∈ years ->
  (INFO, Scraping year (WIKI_CH11_URL year))
  ∈ snd (scrape_years session_get years all_records logged).
Proof.
  revert all_records logged.
  induction years as [|y rest IH]; intros all_records logged Hin;
    [by apply elem_of_nil in Hin|].
  destruct (scrape_years_step y rest all_records logged) as [e [-> _]].
  apply elem_of_cons in Hin as [->|Hin]; [|by apply IH].
  apply scrape_years_keeps_log. rewrite !elem_of_app, !elem_of_cons. tauto.
Qed.

(** C7. A year whose fetch fails (the request raises, the status is not a
    success, or the container element is missing) is skipped with a warning
    and the years after it are still fetched, wherever the year stands in
    the list and whatever the other years do: the records are those of the
    years before it followed by those of the years after it, the name set
    is the union of their name sets, a warning about the year is logged,
    and every later year is announced in the log.  In particular, when 2020
    fails and the pages of 2019 and 2021 are fetched, the name set built
    over [2019, 2020, 2021] is exactly the set of the normalized non-empty
    link texts of 2019 and 2021, with a warning for 2020 and no other. *)
Theorem failed_year_is_skipped :
  (forall (before after : list Z) (year : Z),
     year_fails session_get year ->
     fst (scrape_wikipedia_bankruptcies session_get
            (Some (before ++ year :: after)))
     = fst (scrape_wikipedia_bankruptcies session_get (Some before))
       ++ fst (scrape_wikipedia_bankruptcies session_get (Some after))
     /\ fst (builld_disrupted_name_set upper strip session_get
               (Some (before ++ year :: after)))
        = fst (builld_disrupted_name_set upper strip session_get (Some before))
          ∪ fst (builld_disrupted_name_set upper strip session_get (Some after))
     /\ (exists entry,
           entry ∈ snd (builld_disrupted_name_set upper strip session_get
                          (Some (before ++ year :: after)))
           /\ warning_year entry = Some year)
     /\ (forall later : Z,
           later ∈ after ->
           (INFO, Scraping later (WIKI_CH11_URL later))
           ∈ snd (builld_disrupted_name_set upper strip session_get
                    (Some (before ++ year :: after)))))
  /\ (forall links19 links21 : list string,
        year_lists session_get 2019 links19 ->
        year_fails session_get 2020 ->
        year_lists session_get 2021 links21 ->
        let built :=
          builld_disrupted_name_set upper strip session_get
            (Some [2019; 2020; 2021]) in
        fst built
        = list_to_set
            (map (fun name => strip (upper name))
                 (filter (fun name => name <> "") (links19 ++ links21)))
        /\ (exists entry, entry ∈ snd built /\ warning_year entry = Some 2020)
        /\ (forall entry year,
              entry ∈ snd built -> warning_year entry = Some year ->
              year = 2020)).
Proof.
  split.
  - intros before after year Hfail.
    assert (Hnone : year_records session_get year = []).
    { unfold year_records. by rewrite (proj2 (year_links_fails year) Hfail). }
    assert (Hrecords :
              (before ++ year :: after) ≫= year_records session_get
              = (before ≫= year_records session_get)
                ++ (after ≫= year_records session_get)).
    { by rewrite bind_app, bind_cons, Hnone. }
    split; [by rewrite !scrape_wikipedia_records|].
    split; [rewrite !name_set_of_years, Hrecords, map_app;
            apply list_to_set_app_L|].
    rewrite name_set_log, scrape_wikipedia_log. split.
    + assert (Hwarned :
                year ∈ omap warning_year
                  (snd (scrape_years session_get (before ++ year :: after) [] []))).
      { rewrite (proj1 (scrape_years_log (before ++ year :: after) [] [])).
        simpl. apply list_elem_of_filter.
        split; [by apply year_links_fails|].
        rewrite elem_of_app, elem_of_cons. tauto. }
      apply list_elem_of_omap in Hwarned as [entry [Hin Hyear]].
      exists entry. split; [|done]. rewrite elem_of_app. by left.
    + intros later Hlater. rewrite elem_of_app. left.
      apply scrape_years_announces. rewrite elem_of_app, elem_of_cons. tauto.
  - intros links19 links21 H19 H20 H21 built. subst built.
    rewrite name_set_of_records, name_set_log.
    unfold scrape_wikipedia_bankruptcies. cbn [from_option id].
    rewrite (scrape_years_listed session_get 2019 links19) by done.
    destruct (scrape_years_failed session_get 2020 [2021]
                ([] ++ page_records 2019 links19)
                (([] ++ [(INFO, Scraping 2019 (WIKI_CH11_URL 2019))])
                 ++ [(INFO, CompaniesFound
                              (length (page_records 2019 links19)) 2019)])
                H20) as [entry [Hentry ->]].
    rewrite (scrape_years_listed session_get 2021 links21) by done.
    cbn [scrape_years fst snd app]. split; [|split].
    + rewrite map_app, !page_records_names, filter_app. done.
    + exists entry. split; [|done]. rewrite !elem_of_cons. tauto.
    + intros entry' year Hin Hyear.
      rewrite !elem_of_cons, elem_of_nil in Hin.
      destruct Hin as [?|[?|[?|[?|[?|[?|[?|[]]]]]]]]; subst;
        simpl in Hyear; congruence.
Qed.

Lemma year_records_elem (year : Z) (r : bankruptcy) :
  r ∈ year_records session_get year
  <-> exists links : list string,
        year_lists session_get year links
        /\ b_name r ∈ links /\ b_name r <> ""
        /\ b_year r = year /\ b_disrupted r = 1
        /\ b_source r = "wikipedia_ch11".
Proof.
  unfold year_records. split.
  - destruct (year_links session_get year) as [links|] eqn:Hlinks; simpl.
    + unfold page_records. rewrite list_elem_of_fmap.
      intros [name [-> Hname]]. apply list_elem_of_filter in Hname as [Hne Hin].
      exists links. by rewrite <- year_links_lists.
    + by intros ?%elem_of_nil.
  - intros [links [Hlinks [Hin [Hne [Hyear [Hflag Hsource]]]]]].
    apply year_links_lists in Hlinks. rewrite Hlinks. simpl.
    unfold page_records. apply list_elem_of_fmap. exists (b_name r).
    split; [|by apply list_elem_of_filter].
    destruct r; simpl in *; by subst.
Qed.

Lemma name_set_elem (years : list Z) (d : string) :
  d ∈ fst (builld_disrupted_name_set upper strip session_get (Some years))
  <-> exists (year : Z) (r : bankruptcy),
        year ∈ years /\ r ∈ year_records session_get year
        /\ d = strip (upper (b_name r)).
Proof.
  rewrite name_set_of_years, elem_of_list_to_set, list_elem_of_fmap. split.
  - intros [r [-> Hr]]. apply list_elem_of_bind in Hr as [year [Hr Hyear]].
    by exists year, r.
  - intros [year [r [Hyear [Hr ->]]]]. exists r. split; [done|].
    apply list_elem_of_bind. by exists year.
Qed.

(** X1. Every record the Wikipedia scraper returns has the flag 1, the
    source wikipedia_ch11, a name that is not empty and that is the text of
    a link of the page of its year, and a year among those asked for. *)
Theorem scraped_record_invariant (years : list Z) (r : bankruptcy) :
  r ∈ fst (scrape_wikipedia_bankruptcies session_get (Some years)) ->
  b_disrupted r = 1
  /\ b_source r = "wikipedia_ch11"
  /\ b_name r <> ""
  /\ b_year r ∈ years
  /\ exists links : list string,
       year_lists session_get (b_year r) links /\ b_name r ∈ links.
Proof.
  rewrite scrape_wikipedia_records, list_elem_of_bind.
  intros [year [Hr Hyear]].
  apply year_records_elem in Hr
    as [links [Hlinks [Hin [Hne [<- [Hflag Hsource]]]]]].
  repeat split; try done. by exists links.
Qed.

(** X2. The name set of two lists of years put one after the other is the
    union of the name sets of the two lists. *)
Theorem name_set_of_appended_years (years1 years2 : list Z) :
  fst (builld_disrupted_name_set upper strip session_get (Some (years1 ++ years2)))
  = fst (builld_disrupted_name_set upper strip session_get (Some years1))
    ∪ fst (builld_disrupted_name_set upper strip session_get (Some years2)).
Proof.
  rewrite !name_set_of_years, bind_app, map_app. apply list_to_set_app_L.
Qed.

(** X3. The name set depends on which years are asked for only: neither
    their order nor a year given twice changes it. *)
Theorem name_set_of_same_years (years1 years2 : list Z) :
  (forall year : Z, year ∈ years1 <-> year ∈ years2) ->
  fst (builld_disrupted_name_set upper strip session_get (Some years1))
  = fst (builld_disrupted_name_set upper strip session_get (Some years2)).
Proof.
  intros Hsame. apply set_eq. intros d. rewrite !name_set_elem.
  split; intros [year [r [Hyear H]]]; exists year, r;
    (split; [by apply Hsame|done]).
Qed.

(** X4. A name is in the set the builder returns exactly when it is the
    uppercased and trimmed text of a non-empty link of the page of a year
    asked for whose fetch did not fail. *)
Theorem name_set_membership (years : list Z) (d : string) :
  d ∈ fst (builld_disrupted_name_set upper strip session_get (Some years))
  <-> exists (year : Z) (links : list string) (name : string),
        year ∈ years /\ year_lists session_get year links
        /\ name ∈ links /\ name <> "" /\ d = strip (upper name).
Proof.
  rewrite name_set_elem. split.
  - intros [year [r [Hyear [Hr ->]]]].
    apply year_records_elem in Hr as [links [Hlinks [Hin [Hne _]]]].
    by exists year, links, (b_name r).
  - intros [year [links [name [Hyear [Hlinks [Hin [Hne ->]]]]]]].
    exists year, {| b_name := name; b_year := year; b_disrupted := 1;
                    b_source := "wikipedia_ch11" |}.
    split; [done|]. split; [|done].
    apply year_records_elem. by exists links.
Qed.

(** X5. When the fetch of every year asked for fails, the scraper returns
    no record, the name set is empty, and the warnings logged are one per
    year, in the order of the years. *)
Theorem all_years_fail (years : list Z) :
  (forall year : Z, year ∈ years -> year_fails session_get year) ->
  fst (scrape_wikipedia_bankruptcies session_get (Some years)) = []
  /\ fst (builld_disrupted_name_set upper strip session_get (Some years)) = ∅
  /\ omap warning_year
       (snd (builld_disrupted_name_set upper strip session_get (Some years)))
     = years.
Proof.
  intros Hfail.
  assert (Hnone : years ≫= year_records session_get = []).
  { induction years as [|year rest IH]; [done|].
    change ((year :: rest) ≫= year_records session_get)
      with (year_records session_get year
            ++ (rest ≫= year_records session_get)).
    rewrite IH by (intros y Hy; apply Hfail; by apply list_elem_of_further).
    unfold year_records.
    rewrite (proj2 (year_links_fails year)); [done|].
    apply Hfail, list_elem_of_here. }
  split; [by rewrite scrape_wikipedia_records|].
  split; [by rewrite name_set_of_years, Hnone|].
  rewrite name_set_log, scrape_wikipedia_log, omap_app.
  rewrite (proj1 (scrape_years_log years [] [])). simpl. rewrite app_nil_r.
  clear Hnone. induction years as [|year rest IH]; [done|].
  rewrite filter_cons.
  rewrite (proj2 (year_links_fails year)) by apply Hfail, list_elem_of_here.
  case_decide; [|done]. f_equal. apply IH.
  intros y Hy. apply Hfail. by apply list_elem_of_further.
Qed.

(** X6. The log of the scraper accounts for its result: its last entry
    reports the number of records returned, the counts logged for the years
    add up to that number, and a year has a warning exactly when it was
    asked for and its fetch failed. *)
Theorem scrape_log_accounts (years : list Z) :
  let scraped := scrape_wikipedia_bankruptcies session_get (Some years) in
  last (snd scraped) = Some (INFO, Saved (length (fst scraped)))
  /\ sum_list_with found_count (snd scraped) = length (fst scraped)
  /\ (forall year : Z,
        year ∈ omap warning_year (snd scraped)
        <-> year ∈ years /\ year_fails session_get year).
Proof.
  intros scraped. subst scraped.
  rewrite scrape_wikipedia_log, scrape_wikipedia_records.
  split; [apply last_snoc|]. split.
  - rewrite sum_list_with_app, (proj2 (scrape_years_log years [] [])).
    simpl. lia.
  - intros year. rewrite omap_app, (proj1 (scrape_years_log years [] [])).
    simpl. rewrite app_nil_r, list_elem_of_filter, year_links_fails. tauto.
Qed.

End Years.

(** ** Comprehensions and text, in general *)

Lemma comprehension_Forall2 {A B : Type} (f : A -> result B) (l : list A)
    (ys : list B) :
  comprehension f l = Ok ys <-> Forall2 (fun x y => f x = Ok y) l ys.
Proof.
  revert ys. induction l as [|x l IH]; intros ys; simpl.
  - split; [intros [= <-]; constructor | by intros ->%Forall2_nil_inv_l].
  - split.
    + destruct (f x) as [y|e] eqn:Hx; simpl; [|done].
      destruct (comprehension f l) as [ys'|e]; simpl; [|done].
      intros [= <-]. constructor; [done|]. by apply IH.
    + intros (y & ys' & Hx & Hrest & ->)%Forall2_cons_inv_l.
      rewrite Hx; simpl. apply IH in Hrest. by rewrite Hrest.
Qed.

Lemma comprehension_ext {A B : Type} (f g : A -> result B) (l : list A) :
  (forall x, f x = g x) -> comprehension f l = comprehension g l.
Proof.
  intros Hfg. induction l as [|x l IH]; simpl; [done|]. by rewrite Hfg, IH.
Qed.

(** The first element that raises decides the outcome. *)
Lemma comprehension_raises {A B : Type} (f : A -> result B)
    (good : list A) (bad : A) (rest : list A) (ys : list B) (e : exn) :
  comprehension f good = Ok ys ->
  f bad = Raise e ->
  comprehension f (good ++ bad :: rest) = Raise e.
Proof.
  revert ys. induction good as [|x good IH]; intros ys; simpl.
  - intros _ ->. done.
  - destruct (f x) as [y|e']; simpl; [|done].
    destruct (comprehension f good) as [ys'|e'] eqn:Hgood; simpl; [|done].
    intros _ Hbad. by rewrite (IH ys' eq_refl Hbad).
Qed.

Lemma length_append (a b : string) :
  String.length (a +:+ b) = (String.length a + String.length b)%nat.
Proof.
  induction a as [|c a IH]; [done|].
  rewrite append_String. simpl. by rewrite IH.
Qed.

Lemma length_zeros (n : nat) (c : Ascii.ascii) :
  String.length (String.string_of_list_ascii (replicate n c)) = n.
Proof. induction n as [|n IH]; simpl; [done|]. by rewrite IH. Qed.

Lemma str_len_append (a b : string) :
  str_len (a +:+ b) = (str_len a + str_len b)%nat.
Proof.
  induction a as [|c a IH]; [done|].
  rewrite append_String. simpl. rewrite IH. by destruct (continues_char c).
Qed.




Lemma append_inv_length (a b c d : string) :
  a +:+ b = c +:+ d -> String.length a = String.length c -> a = c /\ b = d.
Proof.
  revert c. induction a as [|x a IH]; intros [|y c]; try done.
  rewrite !append_String. intros [= -> H] [= Hlen].
  by destruct (IH c H Hlen) as [-> ->].
Qed.

(** Occurrences that do not overlap fit in the text: after the [skip]
    bytes left over, the characters that remain hold all of them. *)
Lemma str_count_from_chars (sub s : string) (skip : nat) :
  (skip <= String.length s)%nat ->
  exists pre post : string,
    s = pre +:+ post
    /\ String.length pre = skip
    /\ 0 <= str_count_from skip sub s
    /\ Z.of_nat (str_len sub) * str_count_from skip sub s
       <= Z.of_nat (str_len post).
Proof.
  revert skip. induction s as [|c s IH]; intros skip Hskip.
  - exists EmptyString, EmptyString. simpl in *. repeat split; lia.
  - destruct skip as [|k].
    + change (str_count_from 0 sub (String c s))
        with (if String.prefix sub (String c s)
              then 1 + str_count_from (Nat.pred (String.length sub)) sub s
              else str_count_from O sub s).
      exists EmptyString, (String c s). split; [done|]. split; [done|].
      destruct (String.prefix sub (String c s)) eqn:Hprefix.
      * apply prefix_app in Hprefix as [rest Hrest].
        destruct sub as [|x sub].
        { destruct (IH O) as (pre & post & _ & _ & H0 & _);
            [simpl; lia|]. cbn [String.length Nat.pred str_len]. lia. }
        rewrite append_String in Hrest. injection Hrest as <- ->.
        cbn [String.length Nat.pred].
        destruct (IH (String.length sub)) as (pre & post & Hs & Hpre & H0 & H1).
        { rewrite length_append. lia. }
        apply eq_sym, append_inv_length in Hs as [-> ->]; [|done].
        split; [lia|].
        change (str_len (String c (sub +:+ rest)))
          with (str_len (String c sub +:+ rest)).
        rewrite str_len_append. lia.
      * destruct (IH O) as (pre & post & Hs & Hpre & H0 & H1); [lia|].
        destruct pre; [|done]. rewrite append_empty in Hs. subst post.
        split; [done|]. cbn [str_len]. destruct (continues_char c); lia.
    + destruct (IH k) as (pre & post & Hs & Hpre & H0 & H1);
        [cbn [String.length] in Hskip; lia|].
      exists (String c pre), post. rewrite append_String, <- Hs.
      cbn [String.length str_count_from]. by rewrite Hpre.
Qed.

Lemma count_two_kinds (xs : list pyval) (a b : string) :
  a <> b ->
  (length (List.filter (fun v => py_eq_str v a) xs)
   + length (List.filter (fun v => py_eq_str v b) xs) <= length xs)%nat.
Proof.
  intros Hab. induction xs as [|v xs IH]; simpl; [done|].
  destruct v as [| | | |s| |]; simpl; try lia.
  destruct (String.eqb_spec s a); destruct (String.eqb_spec s b);
    simpl; try lia. congruence.
Qed.

(** ** The ticker listing *)

Section Listing.

Variable py_str : pyval -> string.
Variable session_get : string -> result Response.

(** Once the listing is fetched and is an object, its first entries are
    decoded one by one. *)
Lemma fetch_all_tickers_decodes (max_companies : Z) (resp : Response)
    (items : list (string * pyval)) :
  session_get TICKERs_URL = Ok resp ->
  raise_for_status resp = Ok tt ->
  json_body resp = Some (PDict items) ->
  fetch_all_tickers py_str session_get max_companies
  = comprehension (ticker_record py_str)
      (map snd (slice_to max_companies items)).
Proof.
  intros Hresp Hstatus Hjson. unfold fetch_all_tickers, resp_json.
  rewrite Hresp; simpl. rewrite Hstatus; simpl. rewrite Hjson; simpl.
  generalize (slice_to max_companies items). intros l.
  induction l as [|[i c] l IH]; simpl; [done|]. by rewrite IH.
Qed.

Lemma ticker_record_keys (c : pyval) :
  (exists row, ticker_record py_str c = Ok row) <-> has_listing_keys c.
Proof.
  unfold ticker_record, has_listing_keys, py_getitem. split.
  - intros [row H]. destruct c as [| | | | | |fields]; try done.
    exists fields. split; [done|].
    destruct (assoc "cik_str" fields); simpl in H; [|done].
    destruct (assoc "ticker" fields); simpl in H; [|done].
    destruct (assoc "title" fields); simpl in H; [|done].
    eauto.
  - intros [fields [-> [[v1 ->] [[v2 ->] [v3 ->]]]]]. simpl. eauto.
Qed.

Lemma length_slice_to {A : Type} (n : Z) (l : list A) :
  Z.of_nat (length (slice_to n l))
  = if 0 <=? n then Z.min n (Z.of_nat (length l))
    else Z.max 0 (Z.of_nat (length l) + n).
Proof.
  unfold slice_to. destruct (Z.leb_spec 0 n); rewrite length_take; lia.
Qed.

(** X7. When the listing is decoded, [fetch_all_tickers] returns as many
    rows as the cut [[:max_companies]] keeps: at most [max_companies] of them
    when it is not negative, and all but the last [-max_companies] entries
    when it is. *)
Theorem listing_rows_cut (max_companies : Z) (resp : Response)
    (items : list (string * pyval)) (tickers : list ticker_row) :
  session_get TICKERs_URL = Ok resp ->
  json_body resp = Some (PDict items) ->
  fetch_all_tickers py_str session_get max_companies = Ok tickers ->
  Z.of_nat (length tickers)
  = if 0 <=? max_companies
    then Z.min max_companies (Z.of_nat (length items))
    else Z.max 0 (Z.of_nat (length items) + max_companies).
Proof.
  intros Hresp Hjson Hok.
  assert (Hstatus : raise_for_status resp = Ok tt).
  { unfold fetch_all_tickers in Hok. rewrite Hresp in Hok; simpl in Hok.
    by destruct (raise_for_status resp) as [[]|e]. }
  rewrite (fetch_all_tickers_decodes _ resp items) in Hok by done.
  apply comprehension_length in Hok.
  by rewrite Hok, length_map, length_slice_to.
Qed.


(** X9. A listing that is fetched and is an object is decoded exactly when
    each of the entries the cut keeps is an object with [cik_str], [ticker]
    and [title]; the entries after the cut are not looked at. *)
Theorem listing_decoded_iff (max_companies : Z) (resp : Response)
    (items : list (string * pyval)) :
  session_get TICKERs_URL = Ok resp ->
  raise_for_status resp = Ok tt ->
  json_body resp = Some (PDict items) ->
  (exists tickers : list ticker_row,
     fetch_all_tickers py_str session_get max_companies = Ok tickers)
  <-> Forall has_listing_keys (map snd (slice_to max_companies items)).
Proof.
  intros Hresp Hstatus Hjson.
  rewrite (fetch_all_tickers_decodes _ resp items) by done.
  generalize (map snd (slice_to max_companies items)). intros l. split.
  - intros [tickers H%comprehension_Forall2].
    apply Forall2_Forall_l with (P := fun c row => ticker_record py_str c = Ok row)
                                (k := tickers); [done|].
    apply Forall_forall. intros row _ c Hc. apply ticker_record_keys. eauto.
  - induction 1 as [|c l Hc _ [tickers IH]]; [by exists []|].
    apply ticker_record_keys in Hc as [row Hrow].
    exists (row :: tickers). simpl. rewrite Hrow; simpl. by rewrite IH.
Qed.

(** X10. What [fetch_all_tickers] raises on a listing it cannot decode: a
    document that is not an object has no [items]; the first entry within
    the cut that is not an object cannot be indexed; and the first entry
    that lacks one of the keys raises [KeyError] for the first key it
    lacks, in the order [cik_str], [ticker], [title]. *)
Theorem listing_decoding_errors (max_companies : Z) (resp : Response) :
  session_get TICKERs_URL = Ok resp ->
  raise_for_status resp = Ok tt ->
  (forall data : pyval,
     json_body resp = Some data ->
     (forall items, data <> PDict items) ->
     fetch_all_tickers py_str session_get max_companies
     = Raise (AttributeError "items"))
  /\ (forall (items good rest : list (string * pyval)) (key : string)
        (bad : pyval),
        json_body resp = Some (PDict items) ->
        slice_to max_companies items = good ++ (key, bad) :: rest ->
        Forall has_listing_keys (map snd good) ->
        ((forall fields, bad <> PDict fields) ->
         fetch_all_tickers py_str session_get max_companies = Raise TypeError)
        /\ (forall fields : list (string * pyval),
              bad = PDict fields ->
              (assoc "cik_str" fields = None ->
               fetch_all_tickers py_str session_get max_companies
               = Raise (KeyError "cik_str"))
              /\ (is_Some (assoc "cik_str" fields) ->
                  assoc "ticker" fields = None ->
                  fetch_all_tickers py_str session_get max_companies
                  = Raise (KeyError "ticker"))
              /\ (is_Some (assoc "cik_str" fields) ->
                  is_Some (assoc "ticker" fields) ->
                  assoc "title" fields = None ->
                  fetch_all_tickers py_str session_get max_companies
                  = Raise (KeyError "title")))).
Proof.
  intros Hresp Hstatus. split.
  - intros data Hjson Hdata. unfold fetch_all_tickers, resp_json.
    rewrite Hresp; simpl. rewrite Hstatus; simpl. rewrite Hjson; simpl.
    destruct data; try done. by destruct (Hdata items).
  - intros items good rest key bad Hjson Hslice Hgood.
    assert (Hprefix : exists rows,
               comprehension (ticker_record py_str) (map snd good) = Ok rows).
    { clear Hslice. induction Hgood as [|c l Hc _ [rows IH]]; [by exists []|].
      apply ticker_record_keys in Hc as [row Hrow].
      exists (row :: rows). simpl. rewrite Hrow; simpl. by rewrite IH. }
    destruct Hprefix as [rows Hrows].
    rewrite (fetch_all_tickers_decodes _ resp items) by done.
    rewrite Hslice, map_app. simpl. split.
    + intros Hbad. apply (comprehension_raises _ _ _ _ rows); [done|].
      destruct bad as [| | | | | |fields]; try done. by destruct (Hbad fields).
    + intros fields ->. split; [|split].
      * intros H1. apply (comprehension_raises _ _ _ _ rows); [done|].
        unfold ticker_record; simpl. by rewrite H1.
      * intros [v1 H1] H2. apply (comprehension_raises _ _ _ _ rows); [done|].
        unfold ticker_record; simpl. by rewrite H1, H2.
      * intros [v1 H1] [v2 H2] H3.
        apply (comprehension_raises _ _ _ _ rows); [done|].
        unfold ticker_record; simpl. by rewrite H1, H2, H3.
Qed.

End Listing.

(** ** The metadata of one company *)

Lemma sic_to_tier_range (code : Z) : 0 <= sic_to_tier code <= 4.
Proof. destruct (sic_to_tier_cases code) as [H|[H|[H|[H|[H|H]]]]]; lia. Qed.

(** The two counts are of occurrences that exclude each other. *)
Lemma form_counts_bound (forms : pyval) (n_10k n_8k total : Z) :
  py_count forms "10-K" = Ok n_10k ->
  py_count forms "8-K" = Ok n_8k ->
  py_len forms = Ok total ->
  0 <= n_10k /\ 0 <= n_8k /\ n_10k + n_8k <= total.
Proof.
  destruct forms as [| | | |s|xs|]; simpl; try done.
  - intros [= <-] [= <-] [= <-].
    destruct (str_count_from_chars "10-K" s O)
      as (pre1 & post1 & Hs1 & Hpre1 & H0 & H1); [lia|].
    destruct (str_count_from_chars "8-K" s O)
      as (pre2 & post2 & Hs2 & Hpre2 & H2 & H3); [lia|].
    destruct pre1; [|done]. destruct pre2; [|done].
    rewrite append_empty in Hs1, Hs2. subst post1 post2.
    change (str_len "10-K") with 4%nat in H1.
    change (str_len "8-K") with 3%nat in H3. lia.
  - intros [= <-] [= <-] [= <-].
    pose proof (count_two_kinds xs "10-K" "8-K") as H.
    split; [lia|]. split; [lia|]. rewrite <- Nat2Z.inj_add.
    apply inj_le, H. done.
Qed.

Ltac bind_ok H :=
  match type of H with
  | mbind _ ?m = Ok _ =>
      let x := fresh "x" in
      let Hx := fresh "H" x in
      destruct m as [x|] eqn:Hx; cbn [mbind result_bind] in H; [|discriminate H]
  end.

Section Metadata.

Variable int_of_str : string -> option Z.
Variable session_get : string -> result Response.

(** What a record of [company_metadata] was made of. *)
Lemma company_metadata_inv (filer : string) (meta : company) :
  company_metadata int_of_str session_get filer = Ok meta ->
  exists (resp : Response) (data filings recent forms sic_field : pyval),
    session_get (SUBMISSIONS_URL filer) = Ok resp
    /\ raise_for_status resp = Ok tt
    /\ json_body resp = Some data
    /\ py_get data "filings" (PDict []) = Ok filings
    /\ py_get filings "recent" (PDict []) = Ok recent
    /\ py_get recent "form" (PList []) = Ok forms
    /\ py_get data "sic" (PInt 0) = Ok sic_field
    /\ py_int int_of_str (py_or sic_field (PInt 0)) = Ok (sic meta)
    /\ py_get data "name" (PStr "") = Ok (name meta)
    /\ py_get data "sicDescription" (PStr "") = Ok (sic_description meta)
    /\ py_get data "stateOfIncorporation" (PStr "") = Ok (state meta)
    /\ py_count forms "10-K" = Ok (n_10k meta)
    /\ py_count forms "8-K" = Ok (n_8k meta)
    /\ py_len forms = Ok (n_total_filings meta)
    /\ cik meta = filer
    /\ tier meta = sic_to_tier (sic meta)
    /\ ticker meta = None.
Proof.
  unfold company_metadata, resp_json. intros H.
  bind_ok H. bind_ok H.
  destruct (json_body x) as [data|] eqn:Hjson; cbn [mbind result_bind] in H;
    [|discriminate H].
  do 11 bind_ok H. injection H as <-. destruct x0.
  exists x, data, x1, x2, x3, x4. simpl. repeat split; done.
Qed.

(** X11. Every record [fetch_company_metadata] returns carries the
    identifier it was asked for, a tier that is the tier of its code and
    lies between 0 and 4, no ticker yet, and counts of 10-K and 8-K filings
    that are not negative and together do not exceed the total count. *)
Theorem metadata_record_invariant (filer : string) (meta : company) :
  fetch_company_metadata int_of_str session_get filer = Some meta ->
  cik meta = filer
  /\ tier meta = sic_to_tier (sic meta)
  /\ 0 <= tier meta <= 4
  /\ ticker meta = None
  /\ 0 <= n_10k meta
  /\ 0 <= n_8k meta
  /\ n_10k meta + n_8k meta <= n_total_filings meta.
Proof.
  unfold fetch_company_metadata.
  destruct (company_metadata int_of_str session_get filer) as [m|e] eqn:Hm;
    [|done].
  intros [= ->]. apply company_metadata_inv in Hm
    as (resp & data & filings & recent & forms & sic_field & _ & _ & _ & _ & _
        & _ & _ & _ & _ & _ & _ & H10 & H8 & Hlen & Hcik & Htier & Hticker).
  destruct (form_counts_bound forms _ _ _ H10 H8 Hlen) as (? & ? & ?).
  pose proof (sic_to_tier_range (sic meta)). rewrite Htier. done.
Qed.

(** X12. A code field that is present but false in a test ([null], 0,
    the empty text, [false], an empty list or object) is read as 0, like a
    missing one: the record has code 0 and tier 2. *)
Theorem falsy_sic_defaults (filer : string) (resp : Response)
    (items : list (string * pyval)) (filings recent sic_field : pyval)
    (forms : list pyval) :
  session_get (SUBMISSIONS_URL filer) = Ok resp ->
  raise_for_status resp = Ok tt ->
  json_body resp = Some (PDict items) ->
  assoc "sic" items = Some sic_field ->
  truthy sic_field = false ->
  py_get (PDict items) "filings" (PDict []) = Ok filings ->
  py_get filings "recent" (PDict []) = Ok recent ->
  py_get recent "form" (PList []) = Ok (PList forms) ->
  exists meta : company,
    fetch_company_metadata int_of_str session_get filer = Some meta
    /\ sic meta = 0 /\ tier meta = 2.
Proof.
  intros Hresp Hstatus Hjson Hsic Hfalsy Hfilings Hrecent Hforms.
  destruct (company_metadata_returns int_of_str session_get filer resp items
              filings recent forms 0) as [meta [Hmeta [_ [Hcode Htier]]]];
    try done.
  { rewrite Hsic. simpl. unfold py_or. by rewrite Hfalsy. }
  exists meta. unfold fetch_company_metadata. rewrite Hmeta.
  split; [done|]. split; [done|]. by rewrite Htier.
Qed.

(** X13. The defaults stand in for missing keys only: a document whose
    [filings] is present and is not an object (a [null], say), or whose
    [recent] inside [filings] is, is dropped. *)
Theorem non_object_filings_dropped (filer : string) (resp : Response)
    (items : list (string * pyval)) :
  session_get (SUBMISSIONS_URL filer) = Ok resp ->
  json_body resp = Some (PDict items) ->
  (forall filings : pyval,
     assoc "filings" items = Some filings ->
     (forall fields, filings <> PDict fields) ->
     fetch_company_metadata int_of_str session_get filer = None)
  /\ (forall (fields : list (string * pyval)) (recent : pyval),
        assoc "filings" items = Some (PDict fields) ->
        assoc "recent" fields = Some recent ->
        (forall inner, recent <> PDict inner) ->
        fetch_company_metadata int_of_str session_get filer = None).
Proof.
  intros Hresp Hjson.
  unfold fetch_company_metadata, company_metadata, resp_json.
  rewrite Hresp; simpl. rewrite Hjson.
  destruct (raise_for_status resp) as [[]|e]; simpl; [|done]. split.
  - intros filings -> Hnot. simpl.
    destruct filings as [| | | | | |fields]; try done. by destruct (Hnot fields).
  - intros fields recent -> Hrecent Hnot. simpl. rewrite Hrecent. simpl.
    destruct recent as [| | | | | |inner]; try done. by destruct (Hnot inner).
Qed.

(** X14. A code that [int()] cannot convert drops the company: whenever
    the field is true in a test and [int()] raises on it (text that is not
    a number, a non-empty list or object), no record is returned, whatever
    the rest of the document holds. *)
Theorem unconvertible_sic_dropped (filer : string) (resp : Response)
    (items : list (string * pyval)) (sic_field : pyval) (e : exn) :
  session_get (SUBMISSIONS_URL filer) = Ok resp ->
  json_body resp = Some (PDict items) ->
  assoc "sic" items = Some sic_field ->
  truthy sic_field = true ->
  py_int int_of_str sic_field = Raise e ->
  fetch_company_metadata int_of_str session_get filer = None.
Proof.
  intros Hresp Hjson Hsic Htruthy Hint.
  unfold fetch_company_metadata.
  destruct (company_metadata int_of_str session_get filer) as [meta|e'] eqn:Hm;
    [|done].
  apply company_metadata_inv in Hm
    as (resp' & data & filings & recent & forms & field & Hresp' & _ & Hjson'
        & _ & _ & _ & Hfield & Hcode & _).
  rewrite Hresp in Hresp'. injection Hresp' as <-.
  rewrite Hjson in Hjson'. injection Hjson' as <-.
  simpl in Hfield. rewrite Hsic in Hfield. injection Hfield as <-.
  unfold py_or in Hcode. rewrite Htruthy, Hint in Hcode. discriminate Hcode.
Qed.

(** X15. No record is returned when the request raises, when the status
    is refused, when the body is not JSON, or when it is JSON but not an
    object. *)
Theorem metadata_transport_failures (filer : string) :
  (forall e : exn,
     session_get (SUBMISSIONS_URL filer) = Raise e ->
     fetch_company_metadata int_of_str session_get filer = None)
  /\ (forall resp : Response,
        session_get (SUBMISSIONS_URL filer) = Ok resp ->
        (400 <= status_code resp < 600
         \/ json_body resp = None
         \/ exists data, json_body resp = Some data
                         /\ forall items, data <> PDict items) ->
        fetch_company_metadata int_of_str session_get filer = None).
Proof.
  unfold fetch_company_metadata, company_metadata, resp_json. split.
  - intros e ->. done.
  - intros resp -> H. simpl. unfold raise_for_status.
    destruct H as [Hstatus|[Hjson|[data [Hjson Hdata]]]].
    + destruct (Z.leb_spec 400 (status_code resp)); [|lia].
      by destruct (Z.ltb_spec (status_code resp) 600); [|lia].
    + rewrite Hjson. by destruct (_ && _).
    + rewrite Hjson. destruct (_ && _); [done|]. simpl.
      destruct data as [| | | | | |items]; try done. by destruct (Hdata items).
Qed.

End Metadata.

(** ** The company table *)

Lemma DataFrame_of_companies_name (records : list company) :
  records <> [] ->
  assoc "name" (df_columns (DataFrame_of_companies records))
  = Some (map name records)
  /\ df_len (DataFrame_of_companies records) = length records.
Proof. by destruct records. Qed.

Lemma DataFrame_of_companies_well_formed (records : list company) :
  well_formed (DataFrame_of_companies records).
Proof.
  unfold well_formed. destruct records as [|r records]; [constructor|].
  cbn [DataFrame_of_companies df_columns df_len].
  repeat (constructor; [cbn [snd]; by rewrite length_map|]). constructor.
Qed.

Section Dataset.

Variable py_str : pyval -> string.
Variable int_of_str : string -> option Z.
Variable session_get : string -> result Response.

(** The record of a row, when its metadata is fetched. *)
Let row_record (row : ticker_row) : option company :=
  (fun meta => set_ticker meta (t_ticker row))
    <$> fetch_company_metadata int_of_str session_get (t_cik row).

Lemma collect_metadata_omap (tickers : list ticker_row) (records : list company) :
  collect_metadata int_of_str session_get tickers records
  = records ++ omap row_record tickers.
Proof.
  revert records. induction tickers as [|row rest IH]; intros records; simpl.
  - by rewrite app_nil_r.
  - unfold row_record at 1.
    destruct (fetch_company_metadata int_of_str session_get (t_cik row));
      simpl; rewrite IH; [by rewrite <- app_assoc|done].
Qed.

Lemma length_omap_le {A B : Type} (f : A -> option B) (l : list A) :
  (length (omap f l) <= length l)%nat.
Proof.
  induction l as [|x l IH]; [done|].
  change (omap f (x :: l))
    with (match f x with Some y => y :: omap f l | None => omap f l end).
  destruct (f x); simpl; lia.
Qed.

(** X16. The loop of [build_company_dataset] keeps the rows of the
    listing whose metadata is fetched, in the order of the listing, each
    with the metadata of its own identifier and the ticker of its row; the
    rows whose metadata is not fetched leave no trace. *)
Theorem collected_records_in_order (tickers : list ticker_row) :
  collect_metadata int_of_str session_get tickers []
  = omap (fun row =>
            (fun meta => set_ticker meta (t_ticker row))
              <$> fetch_company_metadata int_of_str session_get (t_cik row))
         tickers
  /\ (forall record : company,
        record ∈ collect_metadata int_of_str session_get tickers [] ->
        exists row : ticker_row,
          row ∈ tickers /\ cik record = t_cik row
          /\ ticker record = Some (t_ticker row)).
Proof.
  rewrite collect_metadata_omap. simpl. split; [done|].
  intros record (row & Hrow & Hrecord)%list_elem_of_omap.
  exists row. split; [done|]. unfold row_record in Hrecord.
  destruct (fetch_company_metadata int_of_str session_get (t_cik row))
    as [meta|] eqn:Hmeta; [|done].
  injection Hrecord as <-. simpl. split; [|done].
  unfold fetch_company_metadata in Hmeta.
  destruct (company_metadata int_of_str session_get (t_cik row)) as [m|e] eqn:Hm;
    [|done].
  injection Hmeta as ->. apply company_metadata_inv in Hm.
  by destruct Hm as (? & ? & ? & ? & ? & ? & _ & _ & _ & _ & _ & _ & _ & _
                     & _ & _ & _ & _ & _ & _ & Hcik & _).
Qed.

(** X17. The table [build_company_dataset] returns is well formed and
    has no more rows than the listing; it has either no row and no column,
    or the ten columns of a company in their order. *)
Theorem company_table_shape (max_companies : Z) (tickers : list ticker_row)
    (df : DataFrame) :
  fetch_all_tickers py_str session_get max_companies = Ok tickers ->
  build_company_dataset py_str int_of_str session_get max_companies = Ok df ->
  well_formed df
  /\ (df_len df <= length tickers)%nat
  /\ ((df_len df = O /\ df_columns df = [])
      \/ (df_len df <> O
          /\ map fst (df_columns df)
             = ["cik"; "name"; "sic"; "sic_description"; "state"; "n_10k";
                "n_8k"; "n_total_filings"; "tier"; "ticker"])).
Proof.
  intros Htickers. unfold build_company_dataset. rewrite Htickers. simpl.
  intros [= <-]. split; [apply DataFrame_of_companies_well_formed|].
  rewrite collect_metadata_omap. simpl.
  pose proof (length_omap_le row_record tickers) as Hle.
  destruct (omap row_record tickers) as [|r records]; simpl in *.
  - split; [lia|]. by left.
  - split; [lia|]. by right.
Qed.

End Dataset.

(** ** More on the labeller *)

Lemma assoc_set_column_eq (col : string) (values : list pyval)
    (columns : list (string * list pyval)) :
  assoc col (set_column col values columns) = Some values.
Proof.
  induction columns as [|[c old] rest IH]; simpl.
  - by rewrite String.eqb_refl.
  - destruct (String.eqb_spec c col) as [->|Hne]; simpl.
    + by rewrite String.eqb_refl.
    + by destruct (String.eqb_spec c col).
Qed.

Lemma set_column_labels (col : string) (values : list pyval)
    (columns : list (string * list pyval)) :
  map fst (set_column col values columns)
  = if decide (col ∈ map fst columns) then map fst columns
    else map fst columns ++ [col].
Proof.
  induction columns as [|[c old] rest IH]; simpl.
  - destruct (decide (col ∈ [])) as [H|H]; [by apply elem_of_nil in H|done].
  - destruct (String.eqb_spec c col) as [->|Hne]; simpl.
    + destruct (decide (col ∈ col :: map fst rest)) as [H|H]; [done|].
      destruct H. apply list_elem_of_here.
    + rewrite IH.
      destruct (decide (col ∈ map fst rest)) as [H|H];
        destruct (decide (col ∈ c :: map fst rest)) as [H'|H']; try done.
      * destruct H'. by apply list_elem_of_further.
      * apply elem_of_cons in H' as [->|H']; done.
Qed.

Lemma set_column_well_formed (df : DataFrame) (col : string)
    (values : list pyval) :
  well_formed df -> length values = df_len df ->
  well_formed (df_setitem df col values).
Proof.
  unfold well_formed, df_setitem. simpl. intros Hwf Hlen.
  induction (df_columns df) as [|[c old] rest IH]; simpl.
  - by repeat constructor.
  - apply Forall_cons in Hwf as [Hc Hrest].
    destruct (String.eqb c col); constructor; try done. by apply IH.
Qed.

Lemma append_empty_r (s : string) : s +:+ EmptyString = s.
Proof.
  induction s as [|c s IH]; [done|]. by rewrite append_String, IH.
Qed.

Section Labels.

Variables upper strip : string -> string.

(** A cell that is not text stops the labelling. *)
Lemma comprehension_not_str (disrupted_names : gset string)
    (cells : list pyval) :
  ~ Forall is_str cells ->
  comprehension (is_disrupted_cell upper strip disrupted_names) cells
  = Raise (AttributeError "upper").
Proof.
  induction cells as [|cell cells IH]; intros Hnot.
  - destruct Hnot. constructor.
  - simpl. destruct cell as [| | | |s| |]; simpl; try done.
    rewrite IH; [done|]. intros Hrest. apply Hnot.
    constructor; [by exists s|done].
Qed.

Lemma label_companies_not_text (companies : DataFrame)
    (disrupted_names : gset string) (cells : list pyval) :
  assoc "name" (df_columns companies) = Some cells ->
  ~ Forall is_str cells ->
  label_companies upper strip companies disrupted_names
  = Raise (AttributeError "upper").
Proof.
  unfold label_companies, df_getitem. intros -> Hnot. simpl.
  by rewrite comprehension_not_str.
Qed.

(** X18. Names added to the set can only add labels: the label for the
    union of two sets is the larger of the labels for each, so the label
    grows with the set. *)
Theorem is_disrupted_union (names1 names2 : gset string) (name : string) :
  is_disrupted upper strip (names1 ∪ names2) name
  = Z.max (is_disrupted upper strip names1 name)
          (is_disrupted upper strip names2 name)
  /\ (names1 ⊆ names2 ->
      is_disrupted upper strip names1 name
      <= is_disrupted upper strip names2 name).
Proof.
  assert (Hiff : forall names : gset string,
             existsb (matches (strip (upper name))) (elements names) = true
             <-> exists d, d ∈ names /\ matches (strip (upper name)) d = true).
  { intros names. rewrite existsb_exists. split; intros [d [Hd Hm]]; exists d.
    - split; [|done]. by apply elem_of_elements, list_elem_of_In.
    - split; [|done]. by apply list_elem_of_In, elem_of_elements. }
  unfold is_disrupted. split.
  - destruct (existsb _ (elements (names1 ∪ names2))) eqn:H12.
    + apply Hiff in H12 as [d [Hd Hm]]. apply elem_of_union in Hd as [Hd|Hd].
      * rewrite (proj2 (Hiff names1)) by eauto. simpl.
        by destruct (existsb _ (elements names2)).
      * rewrite (proj2 (Hiff names2)) by eauto.
        by destruct (existsb _ (elements names1)).
    + destruct (existsb _ (elements names1)) eqn:H1.
      * apply Hiff in H1 as [d [Hd Hm]].
        rewrite (proj2 (Hiff (names1 ∪ names2))) in H12; [done|].
        exists d. split; [|done]. apply elem_of_union. by left.
      * destruct (existsb _ (elements names2)) eqn:H2; [|done].
        apply Hiff in H2 as [d [Hd Hm]].
        rewrite (proj2 (Hiff (names1 ∪ names2))) in H12; [done|].
        exists d. split; [|done]. apply elem_of_union. by right.
  - intros Hsub. destruct (existsb _ (elements names1)) eqn:H1.
    + apply Hiff in H1 as [d [Hd Hm]].
      rewrite (proj2 (Hiff names2)); [done|]. exists d. split; [|done].
      by apply Hsub.
    + simpl. by destruct (existsb _ (elements names2)).
Qed.

(** X19. With an empty set of names every company of a table that can be
    labelled gets the label 0. *)
Theorem empty_set_labels_all_zero (companies : DataFrame)
    (names : list string) :
  assoc "name" (df_columns companies) = Some (map PStr names) ->
  df_len companies <> O ->
  label_companies upper strip companies ∅
  = Ok (df_setitem companies "disrupted" (map (fun _ => PInt 0) names)).
Proof.
  intros Hname Hlen. apply label_companies_returns. exists names.
  split; [done|]. split; [done|]. reflexivity.
Qed.

(** X20. Three edges of the matching rule: an empty text among the names
    labels every company 1; a company whose name is empty once uppercased
    and trimmed is labelled 1 as soon as the set has a name; and a company
    whose normalized name is itself in the set is labelled 1. *)
Theorem matching_edges (disrupted_names : gset string) (name : string) :
  ("" ∈ disrupted_names ->
   is_disrupted upper strip disrupted_names name = 1)
  /\ (strip (upper name) = "" -> disrupted_names <> ∅ ->
      is_disrupted upper strip disrupted_names name = 1)
  /\ (strip (upper name) ∈ disrupted_names ->
      is_disrupted upper strip disrupted_names name = 1).
Proof.
  assert (Hempty : forall s : string, substring_of "" s).
  { intros s. by exists "", s. }
  split; [|split].
  - intros Hin. apply is_disrupted_rule. exists "". split; [done|].
    right. apply Hempty.
  - intros Hblank Hne. apply set_choose_L in Hne as [d Hd].
    apply is_disrupted_rule. exists d. split; [done|]. left.
    rewrite Hblank. apply Hempty.
  - intros Hin. apply is_disrupted_rule. exists (strip (upper name)).
    split; [done|]. left. exists "", "".
    by rewrite append_empty, append_empty_r.
Qed.

(** X21. What [label_companies] raises before it gets to the division: a
    table without a name column raises [KeyError], whatever its rows; a name
    column with a cell that is not text ([None], a number) raises
    [AttributeError], also when the table has no row count to divide by. *)
Theorem label_companies_raises (companies : DataFrame)
    (disrupted_names : gset string) :
  (assoc "name" (df_columns companies) = None ->
   label_companies upper strip companies disrupted_names
   = Raise (KeyError "name"))
  /\ (forall cells : list pyval,
        assoc "name" (df_columns companies) = Some cells ->
        ~ Forall is_str cells ->
        label_companies upper strip companies disrupted_names
        = Raise (AttributeError "upper")).
Proof.
  split.
  - unfold label_companies, df_getitem. intros ->. done.
  - intros cells. apply label_companies_not_text.
Qed.

(** X22. The table [label_companies] returns has the rows and the other
    columns of its input unchanged; its column [disrupted] holds one label
    0 or 1 per name; the column takes the place of an earlier column of
    that name or else comes last; and the table is well formed when the
    input is. *)
Theorem labelled_table_shape (companies labelled : DataFrame)
    (disrupted_names : gset string) :
  label_companies upper strip companies disrupted_names = Ok labelled ->
  df_len labelled = df_len companies
  /\ (forall col : string,
        col <> "disrupted" ->
        assoc col (df_columns labelled) = assoc col (df_columns companies))
  /\ (exists (names : list pyval) (labels : list pyval),
        assoc "name" (df_columns companies) = Some names
        /\ assoc "disrupted" (df_columns labelled) = Some labels
        /\ length labels = length names
        /\ Forall (fun label => label = PInt 0 \/ label = PInt 1) labels)
  /\ map fst (df_columns labelled)
     = (if decide ("disrupted" ∈ map fst (df_columns companies))
        then map fst (df_columns companies)
        else map fst (df_columns companies) ++ ["disrupted"])
  /\ (well_formed companies -> well_formed labelled).
Proof.
  intros [names [Hname [Hlen ->]]]%label_companies_returns.
  split; [done|]. split; [|split; [|split]].
  - intros col Hcol. simpl. by apply assoc_set_column_ne.
  - eexists _, _. split; [exact Hname|]. simpl.
    split; [apply assoc_set_column_eq|].
    split; [by rewrite !length_map|].
    apply Forall_fmap, Forall_forall. intros name _. simpl.
    unfold is_disrupted. destruct (existsb _ _); auto.
  - apply set_column_labels.
  - intros Hwf. apply set_column_well_formed; [done|].
    rewrite length_map.
    apply assoc_elem_of in Hname. unfold well_formed in Hwf.
    rewrite Forall_forall in Hwf. specialize (Hwf _ Hname). simpl in Hwf.
    by rewrite length_map in Hwf.
Qed.

End Labels.

(** ** The script *)

Section Script.

Variables upper strip : string -> string.
Variable py_str : pyval -> string.
Variable int_of_str : string -> option Z.
Variable session_get : string -> result Response.

(** Once the listing is fetched, the script labels the table of the
    records collected with the names of the years. *)
Lemma main_after_listing (max_companies : Z) (years : list Z)
    (tickers : list ticker_row) :
  fetch_all_tickers py_str session_get max_companies = Ok tickers ->
  main upper strip py_str int_of_str session_get max_companies years
  = label_companies upper strip
      (DataFrame_of_companies (collect_metadata int_of_str session_get tickers []))
      (fst (builld_disrupted_name_set upper strip session_get (Some years))).
Proof.
  intros Htickers. unfold main, build_company_dataset. rewrite Htickers. simpl.
  by destruct (builld_disrupted_name_set upper strip session_get (Some years)).
Qed.

Lemma comprehension_raises_upper (disrupted_names : gset string)
    (cells : list pyval) (e : exn) :
  comprehension (is_disrupted_cell upper strip disrupted_names) cells = Raise e ->
  e = AttributeError "upper".
Proof.
  induction cells as [|cell cells IH]; simpl; [done|].
  destruct cell; simpl; try by intros [= <-].
  destruct (comprehension _ cells); simpl; [done|].
  intros [= <-]. by apply IH.
Qed.

(** X23. When the listing is fetched and the metadata of none of its rows
    is (an empty listing and [max_companies = 0] included), the company
    table has no column and the script ends with [KeyError] for the name
    column. *)
Theorem main_without_records (max_companies : Z) (years : list Z)
    (tickers : list ticker_row) :
  fetch_all_tickers py_str session_get max_companies = Ok tickers ->
  (forall row : ticker_row,
     row ∈ tickers ->
     fetch_company_metadata int_of_str session_get (t_cik row) = None) ->
  build_company_dataset py_str int_of_str session_get max_companies
  = Ok {| df_len := O; df_columns := [] |}
  /\ main upper strip py_str int_of_str session_get max_companies years
     = Raise (KeyError "name").
Proof.
  intros Htickers Hnone.
  assert (Hrecords : collect_metadata int_of_str session_get tickers [] = []).
  { clear Htickers. induction tickers as [|row rest IH]; [done|]. simpl.
    rewrite (Hnone row) by apply list_elem_of_here.
    apply IH. intros r Hr. apply Hnone. by apply list_elem_of_further. }
  split.
  - unfold build_company_dataset. rewrite Htickers. simpl. by rewrite Hrecords.
  - by rewrite (main_after_listing _ _ tickers), Hrecords.
Qed.

(** X24. One fetched company whose name is not text (a document with
    [name] set to [null], say) ends the script with [AttributeError]: no
    company is labelled. *)
Theorem main_name_not_text (max_companies : Z) (years : list Z)
    (tickers : list ticker_row) (record : company) :
  fetch_all_tickers py_str session_get max_companies = Ok tickers ->
  record ∈ collect_metadata int_of_str session_get tickers [] ->
  ~ is_str (name record) ->
  main upper strip py_str int_of_str session_get max_companies years
  = Raise (AttributeError "upper").
Proof.
  intros Htickers Hrecord Hname. rewrite (main_after_listing _ _ tickers) by done.
  destruct (collect_metadata int_of_str session_get tickers []) as [|r records]
    eqn:Hrecords; [by apply elem_of_nil in Hrecord|].
  rewrite <- Hrecords in *.
  destruct (DataFrame_of_companies_name
              (collect_metadata int_of_str session_get tickers []))
    as [Hcol _]; [by rewrite Hrecords|].
  apply (label_companies_not_text upper strip) with (cells := map name
           (collect_metadata int_of_str session_get tickers [])); [done|].
  rewrite Forall_fmap, Forall_forall. intros Hall. apply Hname.
  by apply (Hall record).
Qed.

(** X25. When the listing is fetched, at least one company has its
    metadata fetched and every fetched name is text, the script returns the
    company table itself with the column [disrupted] added last: the ten
    company columns keep their cells, and each label is computed from the
    name of its row and the names of the years. *)
Theorem main_returns (max_companies : Z) (years : list Z)
    (tickers : list ticker_row) (names : list string) :
  fetch_all_tickers py_str session_get max_companies = Ok tickers ->
  collect_metadata int_of_str session_get tickers [] <> [] ->
  map name (collect_metadata int_of_str session_get tickers [])
  = map PStr names ->
  exists labelled : DataFrame,
    main upper strip py_str int_of_str session_get max_companies years
    = Ok labelled
    /\ df_len labelled
       = length (collect_metadata int_of_str session_get tickers [])
    /\ df_columns labelled
       = df_columns
           (DataFrame_of_companies
              (collect_metadata int_of_str session_get tickers []))
         ++ [("disrupted",
              map (fun name =>
                     PInt (is_disrupted upper strip
                             (fst (builld_disrupted_name_set upper strip
                                     session_get (Some years)))
                             name))
                  names)]
    /\ map fst (df_columns labelled)
       = ["cik"; "name"; "sic"; "sic_description"; "state"; "n_10k"; "n_8k";
          "n_total_filings"; "tier"; "ticker"; "disrupted"]
    /\ assoc "disrupted" (df_columns labelled)
       = Some (map (fun name =>
                      PInt (is_disrupted upper strip
                              (fst (builld_disrupted_name_set upper strip
                                      session_get (Some years)))
                              name))
                   names).
Proof.
  intros Htickers Hrecords Hnames.
  rewrite (main_after_listing _ _ tickers) by done.
  destruct (DataFrame_of_companies_name _ Hrecords) as [Hcol Hlen].
  eexists. split.
  - apply label_companies_returns. exists names.
    split; [by rewrite Hcol, Hnames|]. split; [|reflexivity].
    rewrite Hlen. by destruct (collect_metadata _ _ tickers []).
  - split; [done|]. simpl.
    split; [by destruct (collect_metadata _ _ tickers [])|].
    split; [|apply assoc_set_column_eq].
    by destruct (collect_metadata _ _ tickers []).
Qed.

(** X26. Once the listing is fetched the script has three outcomes only:
    the labelled table, [KeyError] for the name column, or
    [AttributeError] for a name that is not text.  The division of the
    logging step never fails in it: a company table with a name column has
    a row. *)
Theorem main_outcomes (max_companies : Z) (years : list Z)
    (tickers : list ticker_row) :
  fetch_all_tickers py_str session_get max_companies = Ok tickers ->
  ((exists labelled : DataFrame,
      main upper strip py_str int_of_str session_get max_companies years
      = Ok labelled)
   \/ main upper strip py_str int_of_str session_get max_companies years
      = Raise (KeyError "name")
   \/ main upper strip py_str int_of_str session_get max_companies years
      = Raise (AttributeError "upper"))
  /\ main upper strip py_str int_of_str session_get max_companies years
     <> Raise ZeroDivisionError.
Proof.
  intros Htickers. rewrite (main_after_listing _ _ tickers) by done.
  destruct (collect_metadata int_of_str session_get tickers [])
    as [|r records] eqn:Hrecords.
  - split; [right; by left|done].
  - destruct (DataFrame_of_companies_name (r :: records)) as [Hcol Hlen];
      [done|].
    unfold label_companies, df_getitem. rewrite Hcol.
    cbn [mbind result_bind].
    destruct (comprehension _ (map name (r :: records))) as [labels|e] eqn:Hc;
      cbn [mbind result_bind].
    + unfold df_setitem, py_truediv. cbn [df_len].
      rewrite Hlen. simpl length.
      destruct (Z.eqb_spec (Z.of_nat (S (length records))) 0); [lia|].
      split; [left; eauto|done].
    + apply comprehension_raises_upper in Hc as ->.
      split; [right; by right|done].
Qed.

End Script.

(** ** The tiers, range by range *)

(** X27. The codes of each tier: tier 0 is returned exactly on
    [100, 1000), tier 1 exactly on [2000, 3600), tier 4 exactly on
    [5200, 5800) and [5900, 6000), and the fallback tier 2 on [3600, 4000)
    and on every code outside the declared ranges, the gap [5800, 5900)
    included. *)
Theorem tier_preimages (code : Z) :
  (sic_to_tier code = 0 <-> 100 <= code < 1000)
  /\ (sic_to_tier code = 1 <-> 2000 <= code < 3600)
  /\ (sic_to_tier code = 4 <-> 5200 <= code < 5800 \/ 5900 <= code < 6000)
  /\ (sic_to_tier code = 2
      <-> code < 100 \/ 1000 <= code < 2000 \/ 3600 <= code < 5000
          \/ 5800 <= code < 5900 \/ 6000 <= code).
Proof.
  destruct (sic_to_tier_cases code) as [H|[H|[H|[H|[H|H]]]]]; lia.
Qed.

(** ** The further properties on the fixtures *)

Lemma scraped_record_invariant_witness :
  let r := {| b_name := "Gamma Corp"; b_year := 2019; b_disrupted := 1;
              b_source := "wikipedia_ch11" |} in
  b_disrupted r = 1
  /\ b_source r = "wikipedia_ch11"
  /\ b_name r <> ""
  /\ b_year r ∈ [2019; 2020; 2021]
  /\ exists links : list string,
       year_lists example_session (b_year r) links /\ b_name r ∈ links.
Proof.
  intros r. apply (scraped_record_invariant example_session [2019; 2020; 2021] r).
  assert (H : fst (scrape_wikipedia_bankruptcies example_session
                     (Some [2019; 2020; 2021]))
              = [ {| b_name := "Acme"; b_year := 2019; b_disrupted := 1;
                     b_source := "wikipedia_ch11" |}; r;
                  {| b_name := "Delta Air"; b_year := 2021; b_disrupted := 1;
                     b_source := "wikipedia_ch11" |} ])
    by (vm_compute; reflexivity).
  rewrite H. apply list_elem_of_further, list_elem_of_here.
Defined.

Lemma name_set_of_same_years_witness :
  fst (builld_disrupted_name_set upper_ascii strip_ascii example_session
         (Some [2019; 2021]))
  = fst (builld_disrupted_name_set upper_ascii strip_ascii example_session
           (Some [2021; 2019; 2019])).
Proof.
  apply (name_set_of_same_years upper_ascii strip_ascii example_session).
  intros year. rewrite !elem_of_cons, elem_of_nil. tauto.
Defined.

Lemma all_years_fail_witness :
  fst (scrape_wikipedia_bankruptcies offline_session (Some [2019; 2020])) = []
  /\ fst (builld_disrupted_name_set upper_ascii strip_ascii offline_session
            (Some [2019; 2020])) = ∅
  /\ omap warning_year
       (snd (builld_disrupted_name_set upper_ascii strip_ascii offline_session
               (Some [2019; 2020])))
     = [2019; 2020].
Proof.
  apply (all_years_fail upper_ascii strip_ascii offline_session [2019; 2020]).
  intros year _.
  apply fails_request with (RequestException "connection refused").
  reflexivity.
Defined.

Lemma listing_rows_cut_witness :
  Z.of_nat (length [ {| t_cik := "0000320193"; t_ticker := PStr "AAPL";
                        t_name := PStr "Apple Inc." |};
                     {| t_cik := "0000000002"; t_ticker := PStr "ACME";
                        t_name := PStr "Acme Inc" |} ])
  = Z.min 2 3.
Proof.
  apply (listing_rows_cut str_of_scalar example_session 2 (json_document listing)
           [ ("0", PDict [("cik_str", PInt 320193); ("ticker", PStr "AAPL");
                          ("title", PStr "Apple Inc.")]);
             ("1", PDict [("cik_str", PInt 2); ("ticker", PStr "ACME");
                          ("title", PStr "Acme Inc")]);
             ("2", PDict [("cik_str", PInt 3); ("ticker", PStr "BETA");
                          ("title", PStr "Beta LLC")]) ]);
    reflexivity.
Defined.


Lemma listing_decoded_iff_witness :
  Forall has_listing_keys
    [ PDict [("cik_str", PInt 320193); ("ticker", PStr "AAPL");
             ("title", PStr "Apple Inc.")];
      PDict [("cik_str", PInt 2); ("ticker", PStr "ACME");
             ("title", PStr "Acme Inc")] ].
Proof.
  apply (proj1 (listing_decoded_iff str_of_scalar example_session 2
                  (json_document listing)
                  [ ("0", PDict [("cik_str", PInt 320193); ("ticker", PStr "AAPL");
                                 ("title", PStr "Apple Inc.")]);
                    ("1", PDict [("cik_str", PInt 2); ("ticker", PStr "ACME");
                                 ("title", PStr "Acme Inc")]);
                    ("2", PDict [("cik_str", PInt 3); ("ticker", PStr "BETA");
                                 ("title", PStr "Beta LLC")]) ]
                  eq_refl eq_refl eq_refl)).
  eexists. vm_compute. reflexivity.
Defined.

Lemma listing_decoding_errors_witness :
  fetch_all_tickers str_of_scalar broken_session 2500 = Raise (KeyError "ticker").
Proof.
  destruct (listing_decoding_errors str_of_scalar broken_session 2500
              (json_document broken_listing) eq_refl eq_refl) as [_ Hentry].
  destruct (Hentry
              [ ("0", PDict [("cik_str", PInt 320193); ("ticker", PStr "AAPL");
                             ("title", PStr "Apple Inc.")]);
                ("1", PDict [("cik_str", PInt 7); ("title", PStr "No Ticker Co")]);
                ("2", PNone) ]
              [ ("0", PDict [("cik_str", PInt 320193); ("ticker", PStr "AAPL");
                             ("title", PStr "Apple Inc.")]) ]
              [ ("2", PNone) ] "1"
              (PDict [("cik_str", PInt 7); ("title", PStr "No Ticker Co")])
              eq_refl eq_refl) as [_ Hkeys].
  { constructor; [|constructor]. eexists. split; [reflexivity|].
    repeat split; eexists; reflexivity. }
  destruct (Hkeys [("cik_str", PInt 7); ("title", PStr "No Ticker Co")] eq_refl)
    as [_ [Hticker _]].
  apply Hticker; [eexists; reflexivity | reflexivity].
Defined.

Lemma metadata_record_invariant_witness :
  exists meta : company,
    fetch_company_metadata int_of_digits example_session "0000320193" = Some meta
    /\ cik meta = "0000320193"
    /\ tier meta = sic_to_tier (sic meta)
    /\ 0 <= tier meta <= 4
    /\ ticker meta = None
    /\ 0 <= n_10k meta
    /\ 0 <= n_8k meta
    /\ n_10k meta + n_8k meta <= n_total_filings meta.
Proof.
  eexists. split; [reflexivity|].
  apply (metadata_record_invariant int_of_digits example_session "0000320193").
  reflexivity.
Defined.

Lemma falsy_sic_defaults_witness :
  exists meta : company,
    fetch_company_metadata int_of_digits edge_session "0000000010" = Some meta
    /\ sic meta = 0 /\ tier meta = 2.
Proof.
  apply (falsy_sic_defaults int_of_digits edge_session "0000000010"
           (json_document null_sic_submissions)
           [("name", PStr "Null Code Co"); ("sic", PNone)]
           (PDict []) (PDict []) PNone []); reflexivity.
Defined.

Lemma non_object_filings_dropped_witness :
  fetch_company_metadata int_of_digits edge_session "0000000011" = None.
Proof.
  apply (proj1 (non_object_filings_dropped int_of_digits edge_session
                  "0000000011" (json_document null_filings_submissions)
                  [("name", PStr "No Filings Co"); ("sic", PStr "5200");
                   ("filings", PNone)] eq_refl eq_refl) PNone);
    [reflexivity | discriminate].
Defined.

Lemma unconvertible_sic_dropped_witness :
  fetch_company_metadata int_of_digits edge_session "0000000012" = None.
Proof.
  apply (unconvertible_sic_dropped int_of_digits edge_session "0000000012"
           (json_document text_sic_submissions)
           [("name", PStr "Odd Code Co"); ("sic", PStr "n/a")]
           (PStr "n/a") ValueError); reflexivity.
Defined.

Lemma company_table_shape_witness :
  exists df : DataFrame,
    build_company_dataset str_of_scalar int_of_digits example_session 2500 = Ok df
    /\ well_formed df
    /\ (df_len df <= 3)%nat
    /\ ((df_len df = O /\ df_columns df = [])
        \/ (df_len df <> O
            /\ map fst (df_columns df)
               = ["cik"; "name"; "sic"; "sic_description"; "state"; "n_10k";
                  "n_8k"; "n_total_filings"; "tier"; "ticker"])).
Proof.
  eexists. split; [reflexivity|].
  apply (company_table_shape str_of_scalar int_of_digits example_session 2500
           [ {| t_cik := "0000320193"; t_ticker := PStr "AAPL";
                t_name := PStr "Apple Inc." |};
             {| t_cik := "0000000002"; t_ticker := PStr "ACME";
                t_name := PStr "Acme Inc" |};
             {| t_cik := "0000000003"; t_ticker := PStr "BETA";
                t_name := PStr "Beta LLC" |} ]); reflexivity.
Defined.

Lemma empty_set_labels_all_zero_witness :
  label_companies upper_ascii strip_ascii two_companies ∅
  = Ok (df_setitem two_companies "disrupted" [PInt 0; PInt 0]).
Proof.
  apply (empty_set_labels_all_zero upper_ascii strip_ascii two_companies
           ["Acme Inc"; "Beta LLC"]); [reflexivity | discriminate].
Defined.

Lemma labelled_table_shape_witness :
  map fst (df_columns (df_setitem two_companies "disrupted" [PInt 1; PInt 0]))
  = ["name"; "disrupted"].
Proof.
  apply (labelled_table_shape upper_ascii strip_ascii two_companies
           (df_setitem two_companies "disrupted" [PInt 1; PInt 0])
           {["ACME"; "GAMMA CORP"]}).
  vm_compute. reflexivity.
Defined.

Lemma main_without_records_witness :
  build_company_dataset str_of_scalar int_of_digits listing_only_session 2500
  = Ok {| df_len := O; df_columns := [] |}
  /\ main upper_ascii strip_ascii str_of_scalar int_of_digits
       listing_only_session 2500 [2019]
     = Raise (KeyError "name").
Proof.
  apply (main_without_records upper_ascii strip_ascii str_of_scalar
           int_of_digits listing_only_session 2500 [2019]
           [ {| t_cik := "0000320193"; t_ticker := PStr "AAPL";
                t_name := PStr "Apple Inc." |};
             {| t_cik := "0000000002"; t_ticker := PStr "ACME";
                t_name := PStr "Acme Inc" |};
             {| t_cik := "0000000003"; t_ticker := PStr "BETA";
                t_name := PStr "Beta LLC" |} ]); [reflexivity|].
  intros row Hrow. rewrite !elem_of_cons, elem_of_nil in Hrow.
  destruct Hrow as [->|[->|[->|[]]]]; reflexivity.
Defined.

Lemma main_name_not_text_witness :
  main upper_ascii strip_ascii str_of_scalar int_of_digits edge_session
    2500 [2019]
  = Raise (AttributeError "upper").
Proof.
  apply (main_name_not_text upper_ascii strip_ascii str_of_scalar int_of_digits
           edge_session 2500 [2019]
           [ {| t_cik := "0000000010"; t_ticker := PStr "NSC";
                t_name := PStr "Null Code Co" |};
             {| t_cik := "0000000011"; t_ticker := PStr "NFC";
                t_name := PStr "No Filings Co" |};
             {| t_cik := "0000000012"; t_ticker := PStr "OCC";
                t_name := PStr "Odd Code Co" |};
             {| t_cik := "0000000013"; t_ticker := PStr "NNC";
                t_name := PStr "Null Name Co" |} ]
           {| cik := "0000000013"; name := PNone; sic := 5200;
              sic_description := PStr ""; state := PStr ""; n_10k := 0;
              n_8k := 0; n_total_filings := 0; tier := 4;
              ticker := Some (PStr "NNC") |}).
  - reflexivity.
  - apply list_elem_of_further, list_elem_of_here.
  - intros [s Hs]. discriminate Hs.
Defined.

Lemma main_returns_witness :
  exists labelled : DataFrame,
    main upper_ascii strip_ascii str_of_scalar int_of_digits example_session
      2500 [2019; 2020; 2021]
    = Ok labelled
    /\ df_len labelled = 2%nat
    /\ df_columns labelled
       = [ ("cik", [PStr "0000320193"; PStr "0000000002"]);
           ("name", [PStr "Apple Inc."; PStr "Acme Inc"]);
           ("sic", [PInt 3571; PInt 0]);
           ("sic_description", [PStr "ELECTRONIC COMPUTERS"; PStr ""]);
           ("state", [PStr "CA"; PStr ""]);
           ("n_10k", [PInt 1; PInt 1]);
           ("n_8k", [PInt 2; PInt 0]);
           ("n_total_filings", [PInt 3; PInt 1]);
           ("tier", [PInt 1; PInt 2]);
           ("ticker", [PStr "AAPL"; PStr "ACME"]) ]
         ++ [("disrupted", [PInt 0; PInt 1])]
    /\ map fst (df_columns labelled)
       = ["cik"; "name"; "sic"; "sic_description"; "state"; "n_10k"; "n_8k";
          "n_total_filings"; "tier"; "ticker"; "disrupted"]
    /\ assoc "disrupted" (df_columns labelled) = Some [PInt 0; PInt 1].
Proof.
  apply (main_returns upper_ascii strip_ascii str_of_scalar int_of_digits
           example_session 2500 [2019; 2020; 2021]
           [ {| t_cik := "0000320193"; t_ticker := PStr "AAPL";
                t_name := PStr "Apple Inc." |};
             {| t_cik := "0000000002"; t_ticker := PStr "ACME";
                t_name := PStr "Acme Inc" |};
             {| t_cik := "0000000003"; t_ticker := PStr "BETA";
                t_name := PStr "Beta LLC" |} ]
           ["Apple Inc."; "Acme Inc"]);
    [reflexivity | discriminate | reflexivity].
Defined.

Lemma main_outcomes_witness :
  main upper_ascii strip_ascii str_of_scalar int_of_digits example_session
    2500 [2019; 2020; 2021]
  <> Raise ZeroDivisionError.
Proof.
  apply (main_outcomes upper_ascii strip_ascii str_of_scalar int_of_digits
           example_session 2500 [2019; 2020; 2021]
           [ {| t_cik := "0000320193"; t_ticker := PStr "AAPL";
                t_name := PStr "Apple Inc." |};
             {| t_cik := "0000000002"; t_ticker := PStr "ACME";
                t_name := PStr "Acme Inc" |};
             {| t_cik := "0000000003"; t_ticker := PStr "BETA";
                t_name := PStr "Beta LLC" |} ]).
  reflexivity.
Defined.

Lemma failed_year_is_skipped_witness :
  fst (builld_disrupted_name_set upper_ascii strip_ascii example_session
         (Some [2019; 2020; 2021]))
  = list_to_set ["ACME"; "GAMMA CORP"; "DELTA AIR"]
  /\ fst (scrape_wikipedia_bankruptcies example_session
            (Some ([2018; 2019] ++ 2020 :: [2021])))
     = fst (scrape_wikipedia_bankruptcies example_session (Some [2018; 2019]))
       ++ fst (scrape_wikipedia_bankruptcies example_session (Some [2021])).
Proof.
  assert (H19 : year_lists example_session 2019 ["Acme"; ""; "Gamma Corp"]).
  { exists (page ["Acme"; ""; "Gamma Corp"]). repeat split. }
  assert (H20 : year_fails example_session 2020).
  { apply fails_status with not_found; [reflexivity | simpl; lia]. }
  assert (H21 : year_lists example_session 2021 ["Delta Air"]).
  { exists (page ["Delta Air"]). repeat split. }
  split.
  - exact (proj1 (proj2 (failed_year_is_skipped upper_ascii strip_ascii
                           example_session)
                    ["Acme"; ""; "Gamma Corp"] ["Delta Air"] H19 H20 H21)).
  - exact (proj1 (proj1 (failed_year_is_skipped upper_ascii strip_ascii
                           example_session)
                    [2018; 2019] [2021] 2020 H20)).
Defined.
